(** * pyMOR parameter functionals and matrix loading

    A shallow embedding of [src/pymor/parameters/functionals.py] and of the
    loader dispatch of [src/pymor/tools/io.py].

    Python objects become Rocq values, exceptions become the [Raise] branch
    of [result], the class attribute
    [ExpressionParameterFunctional.functions] (one dictionary shared by all
    instances) lives in an explicit [world] that [evaluate] threads, and the
    parts of the Python runtime the code calls ([compile], the builtins
    module, the scipy/numpy file readers) are parameters of the sections
    that use them. *)

From stdpp Require Import gmap strings list fin_maps.
From Stdlib Require Import ZArith Lia Ascii.

Local Open Scope string_scope.
Local Open Scope Z_scope.
Set Warnings "-register-all".

(** ** Exceptions and results *)

Inductive exc : Type :=
| SyntaxError
| NameError (name : string)
| TypeError
| AttributeError
| IndexError
| KeyError (key : string)
| AssertionError
| ValueError
| IOError (msg : string)
| ZeroDivisionError
| ImportError (modname : string)
| TypeMismatch (name : string).

(** [str(e)], as used by [raise IOError(e)]. *)
Definition str_exc (e : exc) : string :=
  match e with
  | SyntaxError => "invalid syntax"
  | NameError n => "name '" +:+ n +:+ "' is not defined"
  | TypeError => "type error"
  | AttributeError => "attribute error"
  | IndexError => "index out of range"
  | KeyError k => "'" +:+ k +:+ "'"
  | AssertionError => ""
  | ValueError => "value error"
  | IOError m => m
  | ZeroDivisionError => "division by zero"
  | ImportError m => "No module named '" +:+ m +:+ "'"
  | TypeMismatch n => "parameter '" +:+ n +:+ "' does not match its declared shape"
  end.

Definition is_IOError (e : exc) : bool :=
  match e with IOError _ => true | _ => false end.

Inductive result (A : Type) : Type :=
| Ok (a : A)
| Raise (e : exc).
Arguments Ok {A} a.
Arguments Raise {A} e.

Definition rbind {A B : Type} (r : result A) (k : A -> result B) : result B :=
  match r with
  | Ok a => k a
  | Raise e => Raise e
  end.

Notation "x <-- r ; k" := (rbind r (fun x => k))
  (at level 100, r at next level, right associativity).

Definition is_ok {A : Type} (r : result A) : bool :=
  match r with Ok _ => true | Raise _ => false end.

(** ** Python values

    Numbers are integers; a value that the embedding does not interpret (a
    float computed by numpy, the result of an arbitrary builtin) is the
    symbolic term [VSym f args].  Function and module objects are
    identified by their qualified name. *)

Inductive value : Type :=
| VNone
| VInt (n : Z)
| VStr (s : string)
| VArray (shape : list Z) (data : list Z)
| VFunc (qualname : string)
| VModule (modname : string)
| VBuiltins
| VSym (f : string) (args : list value).

(** The interpreter that runs the file: the source carries Python 2
    [__future__] imports, its sibling [io.py] needs Python 3.  The two
    differ, for this code, only in how [<] orders an [int] and a [tuple]. *)
Inductive py_version : Type := Py2 | Py3.

(** A shape as callers write it: a bare number or a tuple of extents. *)
Inductive shape_arg : Type :=
| ShapeNumber (n : Z)
| ShapeTuple (s : list Z).

(** An index as callers write it: an integer or a tuple of integers. *)
Inductive index : Type :=
| IndexInt (c : Z)
| IndexTuple (c : list Z).

(** Python's [sum] over a tuple of integers. *)
Definition sum (s : list Z) : Z := foldr Z.add 0 s.

(** Python's [<] on two tuples of integers: lexicographic. *)
Fixpoint tuple_ltb (a b : list Z) : bool :=
  match a, b with
  | [], [] => false
  | [], _ :: _ => true
  | _ :: _, [] => false
  | x :: a', y :: b' => if x =? y then tuple_ltb a' b' else x <? y
  end.

(** [c < s] for an index [c] and a tuple [s].  Python 2 orders every number
    before every tuple; Python 3 raises [TypeError]. *)
Definition index_lt (ver : py_version) (c : index) (s : list Z) : result bool :=
  match c with
  | IndexTuple t => Ok (tuple_ltb t s)
  | IndexInt _ =>
      match ver with
      | Py2 => Ok true
      | Py3 => Raise TypeError
      end
  end.

(** [assert b] *)
Definition py_assert (b : result bool) : result unit :=
  b' <-- b ; if (b' : bool) then Ok tt else Raise AssertionError.

(** [d[k]] on a dictionary. *)
Definition dict_getitem {A : Type} (d : gmap string A) (k : string) : result A :=
  match d !! k with
  | Some v => Ok v
  | None => Raise (KeyError k)
  end.

(** ** numpy indexing

    Arrays are stored row-major.  Indexing the first axis with an integer
    (negative integers count from the end) selects a block of the data. *)

Definition product (s : list Z) : Z := foldr Z.mul 1 s.

Definition index_axis (a : list Z * list Z) (c : Z) : result (list Z * list Z) :=
  match a with
  | ([], _) => Raise IndexError
  | (n :: rest, d) =>
      let c' := if c <? 0 then c + n else c in
      if (0 <=? c') && (c' <? n)
      then let sz := Z.to_nat (product rest) in
           Ok (rest, take sz (drop (Z.to_nat c' * sz)%nat d))
      else Raise IndexError
  end.

Fixpoint index_axes (a : list Z * list Z) (cs : list Z) : result (list Z * list Z) :=
  match cs with
  | [] => Ok a
  | c :: cs' => a' <-- index_axis a c ; index_axes a' cs'
  end.

(** An array indexed down to rank 0 is returned as a scalar. *)
Definition np_wrap (a : list Z * list Z) : value :=
  match a with
  | ([], [x]) => VInt x
  | (s, d) => VArray s d
  end.

(** [a[c]] *)
Definition np_getitem (a : value) (c : index) : result value :=
  match a with
  | VArray s d =>
      match c with
      | IndexInt i => a' <-- index_axis (s, d) i ; Ok (np_wrap a')
      | IndexTuple cs => a' <-- index_axes (s, d) cs ; Ok (np_wrap a')
      end
  | _ => Raise TypeError
  end.

(** ** The parameter interface

    [pymor/parameters/interfaces.py] is not among the sources; the methods
    the functionals inherit from it are modelled from the specification.
    [lock()] is the [locked] field that every constructor sets last. *)

Module ParameterFunctionalInterface.

(** Modelled from the spec: the normalisation of a declared shape, "a
    shape given as a bare integer N is normalized to () if N==0 else
    (N,)". *)
Definition normalize_shape (s : shape_arg) : list Z :=
  match s with
  | ShapeNumber n => if n =? 0 then [] else [n]
  | ShapeTuple t => t
  end.

(** Modelled from the spec: [build_parameter_type] of the missing
    interface.  "accepts a mapping from name to shape (a shape given as a
    bare integer N is normalized to () if N==0 else (N,)), stores it
    immutably on the owning functional". *)
Definition build_parameter_type (declaration : gmap string shape_arg)
  : gmap string (list Z) :=
  normalize_shape <$> declaration.

(** Modelled from the spec: the values [parse_parameter] accepts for one
    name, "either a bare number (auto-normalized to shape ()) or an
    array-like with a fixed shape". *)
Definition as_array (v : value) : option (list Z * list Z) :=
  match v with
  | VInt n => Some ([], [n])
  | VArray s d => Some (s, d)
  | _ => None
  end.

(** Modelled from the spec: the check of one declared name, whose value
    must be present with a "shape [that] exactly matches the declared
    shape". *)
Definition validate (s : list Z) (v : option value) : option value :=
  match v ≫= as_array with
  | Some (s', d) => if decide (s' = s) then Some (VArray s d) else None
  | None => None
  end.

(** Modelled from the spec: a declared name whose value is missing or
    mismatched, "the offending parameter". *)
Definition offending (d : gmap string value) (kv : string * list Z) : bool :=
  match validate kv.2 (d !! kv.1) with
  | Some _ => false
  | None => true
  end.

(** Modelled from the spec: an "entry of shape ()". *)
Definition is_scalar_shape (kv : string * list Z) : bool :=
  match kv.2 with [] => true | _ => false end.

(** Modelled from the spec: [parse_parameter] of the missing interface.
    "returns a fully validated value conforming to the declared type, or
    fails with a TypeMismatch error naming the offending parameter";
    a value "missing a declared name, or with a mismatched shape, must
    fail validation"; "None is accepted only when the declared type has
    at most one entry of shape ()". *)
Definition parse_parameter (parameter_type : gmap string (list Z))
    (mu : option (gmap string value)) : result (gmap string value) :=
  match mu with
  | None =>
      if bool_decide (size parameter_type ≤ 1)%nat
         && forallb is_scalar_shape (map_to_list parameter_type)
      then Ok ∅
      else Raise (TypeMismatch "")
  | Some d =>
      match List.find (offending d) (map_to_list parameter_type) with
      | Some (k, _) => Raise (TypeMismatch k)
      | None => Ok (map_imap (fun k s => validate s (d !! k)) parameter_type)
      end
  end.

(** Modelled from the spec: a conforming value, "a mapping from parameter
    name to a numeric array whose shape exactly matches the declared shape
    for that name". *)
Definition conforms (parameter_type : gmap string (list Z))
    (v : gmap string value) : Prop :=
  forall k : string,
    match parameter_type !! k with
    | Some s => exists d, v !! k = Some (VArray s d)
    | None => v !! k = None
    end.

End ParameterFunctionalInterface.

(** ** ProjectionParameterFunctional *)

Module ProjectionParameterFunctional.
Import ParameterFunctionalInterface.

Record t : Type := mk {
  name : option string;
  parameter_type : gmap string (list Z);
  parameter_name : string;
  coordinates : option index;
  locked : bool
}.

Section WithVersion.
Variable ver : py_version.

Definition __init__ (parameter_name : string) (parameter_shape : shape_arg)
    (coordinates : option index) (name : option string) : result t :=
  let parameter_shape :=
    match parameter_shape with
    | ShapeNumber n => if n =? 0 then [] else [n]
    | ShapeTuple s => s
    end in
  let parameter_type :=
    build_parameter_type {[ parameter_name := ShapeTuple parameter_shape ]} in
  _ <-- (if 1 <? sum parameter_shape
         then py_assert
                match coordinates with
                | None => Ok false
                | Some c => index_lt ver c parameter_shape
                end
         else Ok tt) ;
  Ok {| name := name;
        parameter_type := parameter_type;
        parameter_name := parameter_name;
        coordinates := coordinates;
        locked := true |}.

End WithVersion.

Definition evaluate (self : t) (mu : option (gmap string value)) : result value :=
  mu <-- parse_parameter (parameter_type self) mu ;
  match coordinates self with
  | None => dict_getitem mu (parameter_name self)
  | Some c => a <-- dict_getitem mu (parameter_name self) ; np_getitem a c
  end.

End ProjectionParameterFunctional.

(** ** Python expressions

    The abstract syntax that [compile(expression, _, 'eval')] produces, for
    the expressions this development evaluates. *)

Inductive binop : Type := Add | Sub | Mul | Div.

Inductive expr : Type :=
| ENum (n : Z)
| EStr (s : string)
| EName (id : string)
| EAttr (e : expr) (attr : string)
| ECall (f : expr) (args : list expr)
| EBin (op : binop) (l r : expr)
| ENeg (e : expr).

(** What the Python installation provides: the parser behind [compile],
    the content of the builtins module, and the importable modules. *)
Record runtime : Type := {
  compile : string -> result expr;
  builtins : gmap string value;
  importable : string -> bool
}.

(** One function call made during an evaluation: the callee and its
    arguments. *)
Definition call : Type := value * list value.

(** Evaluation of an expression yields a result and the calls it made. *)
Definition E (A : Type) : Type := result A * list call.

Definition eret {A : Type} (a : A) : E A := (Ok a, []).

Definition elift {A : Type} (r : result A) : E A := (r, []).

Definition ebind {A B : Type} (m : E A) (k : A -> E B) : E B :=
  match m with
  | (Ok a, cs) => let '(r, cs') := k a in (r, (cs ++ cs')%list)
  | (Raise e, cs) => (Raise e, cs)
  end.

Notation "x <~ m ; k" := (ebind m (fun x => k))
  (at level 100, m at next level, right associativity).

Definition binop_name (op : binop) : string :=
  match op with
  | Add => "add" | Sub => "subtract" | Mul => "multiply" | Div => "true_divide"
  end.

(** [+ - *] on integers; division never reaches here, it yields a float. *)
Definition int_binop (op : binop) (a b : Z) : Z :=
  match op with
  | Add => a + b
  | Sub => a - b
  | Mul => a * b
  | Div => 0
  end.

Definition is_numeric (v : value) : bool :=
  match v with
  | VInt _ | VArray _ _ | VSym _ _ => true
  | _ => false
  end.

(** Arithmetic.  Exact on integers and on integer arrays of one shape (or
    an array and a scalar); true division and everything else numeric is
    left symbolic. *)
Definition py_binop (op : binop) (a b : value) : result value :=
  match op, a, b with
  | Div, VInt _, VInt 0 => Raise ZeroDivisionError
  | Div, _, _ =>
      if is_numeric a && is_numeric b
      then Ok (VSym (binop_name op) [a; b]) else Raise TypeError
  | _, VInt x, VInt y => Ok (VInt (int_binop op x y))
  | _, VArray s d, VInt y => Ok (np_wrap (s, (fun x => int_binop op x y) <$> d))
  | _, VInt x, VArray s d => Ok (np_wrap (s, (fun y => int_binop op x y) <$> d))
  | _, VArray s d, VArray s' d' =>
      if decide (s = s')
      then Ok (np_wrap (s, zip_with (int_binop op) d d'))
      else Ok (VSym (binop_name op) [a; b])
  | Add, VStr x, VStr y => Ok (VStr (x +:+ y))
  | _, _, _ =>
      if is_numeric a && is_numeric b
      then Ok (VSym (binop_name op) [a; b]) else Raise TypeError
  end.

Definition py_neg (a : value) : result value :=
  match a with
  | VInt x => Ok (VInt (- x))
  | VArray s d => Ok (np_wrap (s, Z.opp <$> d))
  | VSym _ _ => Ok (VSym "negative" [a])
  | _ => Raise TypeError
  end.

(** [e.attr] is not interpreted: the outcome is the symbolic
    [getattr(e, attr)]. *)
Definition py_getattr (v : value) (attr : string) : value :=
  VSym "getattr" [v; VStr attr].

Definition callable (f : value) : bool :=
  match f with
  | VFunc _ | VSym _ _ => true
  | _ => false
  end.

Definition as_scalar (v : value) : option Z :=
  match v with
  | VInt n => Some n
  | VArray [] [n] => Some n
  | _ => None
  end.

(** The arguments of a call are evaluated from left to right. *)
Definition eval_list (ev : expr -> E value) : list expr -> E (list value) :=
  fix go (l : list expr) : E (list value) :=
    match l with
    | [] => eret []
    | a :: l' => v <~ ev a ; vs <~ go l' ; eret (v :: vs)
    end.

(** [n.a1.a2...]: a name followed by attribute accesses. *)
Definition attr_chain (n : string) (attrs : list string) : expr :=
  fold_left EAttr attrs (EName n).

Section Eval.
Variable rt : runtime.

(** The outcome of calling [f(args)].  The builtins [abs] and
    [__import__] and numpy's [minimum] and [maximum] are interpreted;
    every other call is left symbolic. *)
Definition call_function (f : value) (args : list value) : result value :=
  match f, args with
  | VFunc "abs", [VInt n] => Ok (VInt (Z.abs n))
  | VFunc "abs", [VArray s d] => Ok (np_wrap (s, Z.abs <$> d))
  | VFunc "__import__", [VStr m] =>
      if importable rt m then Ok (VModule m) else Raise (ImportError m)
  | VFunc "numpy.minimum", [a; b] =>
      match as_scalar a, as_scalar b with
      | Some x, Some y => Ok (VInt (Z.min x y))
      | _, _ => Ok (VSym "call" (f :: args))
      end
  | VFunc "numpy.maximum", [a; b] =>
      match as_scalar a, as_scalar b with
      | Some x, Some y => Ok (VInt (Z.max x y))
      | _, _ => Ok (VSym "call" (f :: args))
      end
  | _, _ => Ok (VSym "call" (f :: args))
  end.

Definition py_call (f : value) (args : list value) : E value :=
  if callable f then (call_function f args, [(f, args)])
  else (Raise TypeError, []).

Section Namespaces.
Variables locals globals : gmap string value.

(** Name lookup in code compiled for [eval]: the locals, then the
    globals, then the builtins found under the globals'
    [__builtins__]. *)
Definition load_name (id : string) : result value :=
  match locals !! id with
  | Some v => Ok v
  | None =>
      match globals !! id with
      | Some v => Ok v
      | None =>
          match globals !! "__builtins__" with
          | Some VBuiltins =>
              match builtins rt !! id with
              | Some v => Ok v
              | None => Raise (NameError id)
              end
          | _ => Raise (NameError id)
          end
      end
  end.

(** The callee is evaluated first, then the arguments from left to
    right, then the call is made. *)
Fixpoint eval_expr (e : expr) : E value :=
  match e with
  | ENum n => eret (VInt n)
  | EStr s => eret (VStr s)
  | EName id => elift (load_name id)
  | EAttr e' attr => v <~ eval_expr e' ; eret (py_getattr v attr)
  | ECall f args =>
      fv <~ eval_expr f ;
      avs <~ eval_list eval_expr args ;
      py_call fv avs
  | EBin op l r =>
      a <~ eval_expr l ; b <~ eval_expr r ; elift (py_binop op a b)
  | ENeg e' => a <~ eval_expr e' ; elift (py_neg a)
  end.

End Namespaces.
End Eval.

(** ** The world: what outlives a call

    [functions] is the class attribute
    [ExpressionParameterFunctional.functions]; [calls] records the calls
    made so far. *)

Record world : Type := {
  functions : gmap string value;
  calls : list call
}.

Definition M (A : Type) : Type := world -> result A * world.

(** [eval(code, globals, locals)] with the class dictionary as globals:
    when the globals hold no [__builtins__], [eval] inserts a reference to
    the builtins there before it runs the code.  A call is recorded and
    its outcome kept symbolic: what a called function does to the
    dictionary, as [globals().clear()] would, is not part of this model,
    and the properties about the dictionary after an evaluation are stated
    for expressions without calls. *)
Definition ensure_builtins (globals : gmap string value) : gmap string value :=
  match globals !! "__builtins__" with
  | Some _ => globals
  | None => <[ "__builtins__" := VBuiltins ]> globals
  end.

Definition py_eval (rt : runtime) (code : expr) (locals : gmap string value)
  : M value :=
  fun w =>
    let globals := ensure_builtins (functions w) in
    let '(r, cs) := eval_expr rt locals globals code in
    (r, {| functions := globals; calls := (calls w ++ cs)%list |}).

(** ** GenericParameterFunctional *)

Module GenericParameterFunctional.
Import ParameterFunctionalInterface.

Record t : Type := mk {
  name : option string;
  _mapping : gmap string value -> M value;
  parameter_type : gmap string (list Z);
  locked : bool
}.

Definition __init__ (mapping : gmap string value -> M value)
    (parameter_type : gmap string shape_arg) (name : option string) : t :=
  {| name := name;
     _mapping := mapping;
     parameter_type := build_parameter_type parameter_type;
     locked := true |}.

Definition evaluate (self : t) (mu : option (gmap string value)) : M value :=
  fun w =>
    match parse_parameter (parameter_type self) mu with
    | Raise e => (Raise e, w)
    | Ok mu => _mapping self mu w
    end.

End GenericParameterFunctional.

(** ** ExpressionParameterFunctional *)

Module ExpressionParameterFunctional.
Module G := GenericParameterFunctional.

Definition whitelist : list string :=
  [ "sin"; "cos"; "tan"; "arcsin"; "arccos"; "arctan";
    "sinh"; "cosh"; "tanh"; "arcsinh"; "arccosh"; "arctanh";
    "exp"; "exp2"; "log"; "log2"; "log10";
    "min"; "minimum"; "max"; "maximum" ].

(** The class attribute as the class statement leaves it:
    [{k: np.__dict__[k] for k in {...}}]. *)
Definition functions0 : gmap string value :=
  list_to_map ((fun k => (k, VFunc ("numpy." +:+ k))) <$> whitelist).

(** An instance: the attributes of the base class and [expression]. *)
Record t : Type := mk {
  expression : string;
  base : G.t
}.

Section WithRuntime.
Variable rt : runtime.

Definition __init__ (expression : string)
    (parameter_type : gmap string shape_arg) (name : option string)
  : result t :=
  code <-- compile rt expression ;
  let mapping := fun mu => py_eval rt code mu in
  Ok {| expression := expression;
        base := G.__init__ mapping parameter_type name |}.

Definition __getstate__ (self : t)
  : string * gmap string (list Z) * option string :=
  (expression self, G.parameter_type (base self), G.name (base self)).

(** The constructor is called again on the unpacked state; the stored
    parameter type is handed back to it as its declaration. *)
Definition __setstate__
    (state : string * gmap string (list Z) * option string) : result t :=
  let '(expression, parameter_type, name) := state in
  __init__ expression (ShapeTuple <$> parameter_type) name.

End WithRuntime.

(** Inherited from [GenericParameterFunctional]. *)
Definition evaluate (self : t) (mu : option (gmap string value)) : M value :=
  G.evaluate (base self) mu.


Definition initial_world : world :=
  {| functions := functions0; calls := [] |}.

End ExpressionParameterFunctional.

(** ** A concrete runtime

    A parser for the fragment of Python's expression grammar that the
    examples use (integer literals, names, quoted strings without escapes,
    attribute access, calls, unary minus, [+ - * /] and parentheses), and
    the built-in functions of the Python 3 library reference.  A string
    outside the fragment is reported as a syntax error. *)

Module Parser.

Inductive token : Type :=
| TNum (n : Z)
| TName (id : string)
| TStr (s : string)
| TSym (c : ascii).

Inductive lexer_state : Type :=
| Idle
| InNum (n : Z)
| InName (id : string)
| InStr (quote : ascii) (s : string).

Definition code_in (lo hi : nat) (c : ascii) : bool :=
  (lo <=? nat_of_ascii c)%nat && (nat_of_ascii c <=? hi)%nat.

Definition is_digit (c : ascii) : bool := code_in 48 57 c.

Definition is_alpha (c : ascii) : bool :=
  code_in 65 90 c || code_in 97 122 c || (nat_of_ascii c =? 95)%nat.

Definition is_space (c : ascii) : bool :=
  (nat_of_ascii c =? 32)%nat || (nat_of_ascii c =? 9)%nat.

Definition is_quote (c : ascii) : bool :=
  (nat_of_ascii c =? 39)%nat || (nat_of_ascii c =? 34)%nat.

(** ( ) * + , - . / *)
Definition is_symbol (c : ascii) : bool := code_in 40 47 c.

Definition digit (c : ascii) : Z := Z.of_nat (nat_of_ascii c) - 48.

Definition snoc (s : string) (c : ascii) : string := s +:+ String c "".

Fixpoint lex (st : lexer_state) (s : string) : option (list token) :=
  match s with
  | EmptyString =>
      match st with
      | Idle => Some []
      | InNum n => Some [TNum n]
      | InName id => Some [TName id]
      | InStr _ _ => None
      end
  | String c s' =>
      let start :=
        if is_space c then lex Idle s'
        else if is_digit c then lex (InNum (digit c)) s'
        else if is_alpha c then lex (InName (String c "")) s'
        else if is_quote c then lex (InStr c "") s'
        else if is_symbol c then cons (TSym c) <$> lex Idle s'
        else None in
      match st with
      | Idle => start
      | InNum n =>
          if is_digit c then lex (InNum (10 * n + digit c)) s'
          else cons (TNum n) <$> start
      | InName id =>
          if is_alpha c || is_digit c then lex (InName (snoc id c)) s'
          else cons (TName id) <$> start
      | InStr q w =>
          if Ascii.eqb c q then cons (TStr w) <$> lex Idle s'
          else lex (InStr q (snoc w c)) s'
      end
  end.

Definition sym (c : ascii) (k : string) : bool := String.eqb (String c "") k.

(** Recursive descent, one unit of fuel per step:
    sum ::= term (("+" | "-") term)*
    term ::= factor (("*" | "/") factor)*
    factor ::= "-" factor | atom trailer*
    trailer ::= "." NAME | "(" [sum ("," sum)*] ")"
    atom ::= NUMBER | NAME | STRING | "(" sum ")" *)
Fixpoint p_sum (fuel : nat) (ts : list token) : option (expr * list token) :=
  match fuel with
  | O => None
  | S fuel =>
      match p_term fuel ts with
      | Some (l, ts1) => p_sum_rest fuel l ts1
      | None => None
      end
  end
with p_sum_rest (fuel : nat) (l : expr) (ts : list token)
  : option (expr * list token) :=
  match fuel with
  | O => None
  | S fuel =>
      match ts with
      | TSym c :: ts' =>
          if sym c "+" || sym c "-" then
            match p_term fuel ts' with
            | Some (r, ts2) =>
                p_sum_rest fuel (EBin (if sym c "+" then Add else Sub) l r) ts2
            | None => None
            end
          else Some (l, ts)
      | _ => Some (l, ts)
      end
  end
with p_term (fuel : nat) (ts : list token) : option (expr * list token) :=
  match fuel with
  | O => None
  | S fuel =>
      match p_factor fuel ts with
      | Some (l, ts1) => p_term_rest fuel l ts1
      | None => None
      end
  end
with p_term_rest (fuel : nat) (l : expr) (ts : list token)
  : option (expr * list token) :=
  match fuel with
  | O => None
  | S fuel =>
      match ts with
      | TSym c :: ts' =>
          if sym c "*" || sym c "/" then
            match p_factor fuel ts' with
            | Some (r, ts2) =>
                p_term_rest fuel (EBin (if sym c "*" then Mul else Div) l r) ts2
            | None => None
            end
          else Some (l, ts)
      | _ => Some (l, ts)
      end
  end
with p_factor (fuel : nat) (ts : list token) : option (expr * list token) :=
  match fuel with
  | O => None
  | S fuel =>
      match ts with
      | TSym c :: ts' =>
          if sym c "-" then
            match p_factor fuel ts' with
            | Some (e, ts1) => Some (ENeg e, ts1)
            | None => None
            end
          else if sym c "(" then
            match p_sum fuel ts' with
            | Some (e, TSym c' :: ts1) =>
                if sym c' ")" then p_trailers fuel e ts1 else None
            | _ => None
            end
          else None
      | TNum n :: ts' => p_trailers fuel (ENum n) ts'
      | TName id :: ts' => p_trailers fuel (EName id) ts'
      | TStr s :: ts' => p_trailers fuel (EStr s) ts'
      | [] => None
      end
  end
with p_trailers (fuel : nat) (e : expr) (ts : list token)
  : option (expr * list token) :=
  match fuel with
  | O => None
  | S fuel =>
      match ts with
      | TSym c :: ts' =>
          if sym c "." then
            match ts' with
            | TName attr :: ts1 => p_trailers fuel (EAttr e attr) ts1
            | _ => None
            end
          else if sym c "(" then
            match ts' with
            | TSym c' :: ts1 =>
                if sym c' ")" then p_trailers fuel (ECall e []) ts1
                else
                  match p_args fuel ts' with
                  | Some (args, ts2) => p_trailers fuel (ECall e args) ts2
                  | None => None
                  end
            | _ =>
                match p_args fuel ts' with
                | Some (args, ts2) => p_trailers fuel (ECall e args) ts2
                | None => None
                end
            end
          else Some (e, ts)
      | _ => Some (e, ts)
      end
  end
with p_args (fuel : nat) (ts : list token) : option (list expr * list token) :=
  match fuel with
  | O => None
  | S fuel =>
      match p_sum fuel ts with
      | Some (a, TSym c :: ts1) =>
          if sym c ")" then Some ([a], ts1)
          else if sym c "," then
            match p_args fuel ts1 with
            | Some (args, ts2) => Some (a :: args, ts2)
            | None => None
            end
          else None
      | _ => None
      end
  end.

Definition parse_expression (s : string) : result expr :=
  match lex Idle s with
  | None => Raise SyntaxError
  | Some ts =>
      match p_sum (8 * List.length ts + 8) ts with
      | Some (e, []) => Ok e
      | _ => Raise SyntaxError
      end
  end.

End Parser.

(** The names of the section "Built-in Functions" of the library
    reference. *)
Definition builtin_function_names : list string :=
  [ "abs"; "all"; "any"; "ascii"; "bin"; "bool"; "breakpoint"; "bytearray";
    "bytes"; "callable"; "chr"; "classmethod"; "compile"; "complex";
    "delattr"; "dict"; "dir"; "divmod"; "enumerate"; "eval"; "exec";
    "filter"; "float"; "format"; "frozenset"; "getattr"; "globals";
    "hasattr"; "hash"; "help"; "hex"; "id"; "input"; "int"; "isinstance";
    "issubclass"; "iter"; "len"; "list"; "locals"; "map"; "max";
    "memoryview"; "min"; "next"; "object"; "oct"; "open"; "ord"; "pow";
    "print"; "property"; "range"; "repr"; "reversed"; "round"; "set";
    "setattr"; "slice"; "sorted"; "staticmethod"; "str"; "sum"; "super";
    "tuple"; "type"; "vars"; "zip"; "__import__" ].

Definition cpython : runtime :=
  {| compile := Parser.parse_expression;
     builtins := list_to_map ((fun k => (k, VFunc k)) <$> builtin_function_names);
     importable := fun m => existsb (String.eqb m) ["os"; "sys"; "math"] |}.

(** ** Matrix loading ([pymor/tools/io.py])

    The readers of scipy and numpy are parameters: what they return for a
    path is the content of the file system.  [Obj] is the type of the
    Python objects they hand back. *)

Module io.

(** What [np.load] returns: a mapping (a [dict] or an [NpzFile]) or any
    other object. *)
Inductive loaded (Obj : Type) : Type :=
| Mapping (d : gmap string Obj)
| Single (o : Obj).
Arguments Mapping {Obj} d.
Arguments Single {Obj} o.

Record library (Obj : Type) : Type := {
  is_ndarray : Obj -> bool;
  issparse : Obj -> bool;
  tocsc : Obj -> Obj;
  loadmat : string -> result (gmap string Obj);
  mmread : string -> result Obj;
  np_load : string -> result (loaded Obj);
  np_loadtxt : string -> result Obj
}.
Arguments is_ndarray {Obj} l.
Arguments issparse {Obj} l.
Arguments tocsc {Obj} l.
Arguments loadmat {Obj} l.
Arguments mmread {Obj} l.
Arguments np_load {Obj} l.
Arguments np_loadtxt {Obj} l.

(** *** Strings and paths *)

Definition dquote : string := String (ascii_of_nat 34) "".

(** [if key:] for a key that is [None] or a string. *)
Definition truthy (key : option string) : bool :=
  match key with
  | Some k => negb (String.eqb k "")
  | None => false
  end.

Definition str_key (key : option string) : string :=
  match key with
  | Some k => k
  | None => "None"
  end.

Definition lower_ascii (c : ascii) : ascii :=
  let n := nat_of_ascii c in
  if (65 <=? n)%nat && (n <=? 90)%nat then ascii_of_nat (n + 32) else c.

Fixpoint lower (s : string) : string :=
  match s with
  | EmptyString => EmptyString
  | String c s' => String (lower_ascii c) (lower s')
  end.

(** [s.split(sep)] for a one-character separator. *)
Fixpoint split (sep : ascii) (s : string) : list string :=
  match s with
  | EmptyString => [EmptyString]
  | String c s' =>
      if Ascii.eqb c sep then EmptyString :: split sep s'
      else match split sep s' with
           | h :: t => String c h :: t
           | [] => [String c EmptyString]
           end
  end.

Fixpoint lstrip (c : ascii) (s : string) : string :=
  match s with
  | String x s' => if Ascii.eqb x c then lstrip c s' else s
  | EmptyString => EmptyString
  end.

Fixpoint endswith (c : ascii) (s : string) : bool :=
  match s with
  | EmptyString => false
  | String x EmptyString => Ascii.eqb x c
  | String _ s' => endswith c s'
  end.

(** ["."].join(l) *)
Fixpoint join (sep : string) (l : list string) : string :=
  match l with
  | [] => ""
  | [x] => x
  | x :: l' => x +:+ sep +:+ join sep l'
  end.

(** [Path(path).name]: the final component, for a path written without a
    trailing separator. *)
Definition path_name (path : string) : string :=
  List.last (split "/" path) "".

(** [Path(path).suffixes], as pathlib computes it. *)
Definition suffixes (path : string) : list string :=
  let name := path_name path in
  if endswith "." name then []
  else (fun suffix => "." +:+ suffix) <$> tail (split "." (lstrip "." name)).

Definition len (s : string) : nat := String.length s.

(** *** The loaders *)

Section WithLibrary.
Context {Obj : Type}.
Variable lib : library Obj.

Definition is_matrix (o : Obj) : bool := is_ndarray lib o || issparse lib o.

(** [try: ... except Exception as e: raise IOError(e)] *)
Definition as_IOError {A : Type} (r : result A) : result A :=
  match r with
  | Ok a => Ok a
  | Raise e => Raise (IOError (str_exc e))
  end.

Definition _loadmat (path : string) (key : option string) : result Obj :=
  data <-- as_IOError (loadmat lib path) ;
  if truthy key then
    match data !! str_key key with
    | Some v => Ok v
    | None =>
        Raise (IOError (dquote +:+ str_key key +:+ dquote
                        +:+ " not found in MATLAB file " +:+ path))
    end
  else
    match List.filter is_matrix (map_to_list data).*2 with
    | [] => Raise (IOError ("No matrix data contained in MATLAB file " +:+ path))
    | [v] => Ok v
    | _ :: _ :: _ =>
        Raise (IOError ("More than one matrix object stored in MATLAB file "
                        +:+ path))
    end.

Definition _mmread (path : string) (key : option string) : result Obj :=
  if truthy key then
    Raise (IOError ("Cannot specify " +:+ dquote +:+ "key" +:+ dquote
                    +:+ " for Matrix Market file"))
  else
    as_IOError
      (matrix <-- mmread lib path ;
       Ok (if issparse lib matrix then tocsc lib matrix else matrix)).

Definition _load (path : string) (key : option string) : result Obj :=
  data <-- np_load lib path ;
  matrix <--
    match data with
    | Mapping d =>
        if truthy key then
          match d !! str_key key with
          | Some v => Ok v
          | None =>
              Raise (IOError (dquote +:+ str_key key +:+ dquote
                              +:+ " not found in NPY file " +:+ path))
          end
        else
          match (map_to_list d).*2 with
          | [] => Raise (IOError ("No data contained in NPY file " +:+ path))
          | [v] => Ok v
          | _ :: _ :: _ =>
              Raise (IOError ("More than one object stored in NPY file "
                              +:+ path +:+ " for key " +:+ str_key key))
          end
    | Single o => Ok o
    end ;
  if is_matrix matrix then Ok matrix
  else Raise (IOError ("Loaded data is not a matrix in NPY file " +:+ path)).

Definition _loadtxt (path : string) (key : option string) : result Obj :=
  if truthy key then
    Raise (IOError ("Cannot specify " +:+ dquote +:+ "key" +:+ dquote
                    +:+ " for TXT file"))
  else as_IOError (np_loadtxt lib path).

Definition loader : Type := string -> option string -> result Obj.

Definition file_format_map : gmap string (string * loader) :=
  list_to_map
    [ (".mat", ("MATLAB", _loadmat));
      (".mtx", ("Matrix Market", _mmread));
      (".mtz.gz", ("Matrix Market", _mmread));
      (".npy", ("NPY/NPZ", _load));
      (".npz", ("NPY/NPZ", _load));
      (".txt", ("Text", _loadtxt)) ].

(** The [for loader in loaders: try ... except IOError: pass] loop and
    the [raise] that follows it. *)
Fixpoint try_loaders (loaders : list loader) (path : string)
    (key : option string) : result Obj :=
  match loaders with
  | [] =>
      Raise (IOError ("Could not load file " +:+ path +:+ " (key = "
                      +:+ str_key key +:+ ")"))
  | l :: loaders' =>
      match l path key with
      | Ok m => Ok m
      | Raise e =>
          if is_IOError e then try_loaders loaders' path key else Raise e
      end
  end.

End WithLibrary.

(** [l[-i]] for a list of strings and [i >= 1]. *)
Definition from_end (l : list string) (i : nat) : result string :=
  match rev l !! (i - 1)%nat with
  | Some x => Ok x
  | None => Raise IndexError
  end.

(** The extension that [load_matrix] derives from the suffixes.  The
    [elif] reads [path.suffixes[-1]] also when there is no suffix. *)
Definition detect_extension (path : string) : result (option string) :=
  let sfx := suffixes path in
  let suffix_count := List.length sfx in
  c <-- (if (suffix_count =? 0)%nat then Ok false
         else last <-- from_end sfx 1 ; Ok (len last =? 4)%nat) ;
  if (c : bool) then
    last <-- from_end sfx 1 ; Ok (Some (lower last))
  else
    last <-- from_end sfx 1 ;
    c' <-- (if String.eqb (lower last) ".gz" && (2 <=? suffix_count)%nat
            then prev <-- from_end sfx 2 ; Ok (len prev =? 4)%nat
            else Ok false) ;
    if (c' : bool) then Ok (Some (lower (join "." (drop (suffix_count - 2) sfx))))
    else Ok None.

(** The calls to the logger are left out: they do not influence the
    result. *)
Definition load_matrix {Obj : Type} (lib : library Obj) (path : string)
    (key : option string) : result Obj :=
  extension <-- detect_extension path ;
  match extension ≫= (fun ext => file_format_map lib !! ext) with
  | Some (file_type, loader) => loader path key
  | None => try_loaders [_loadmat lib; _mmread lib; _loadtxt lib; _load lib] path key
  end.

(** *** Context managers

    The operating system is a parameter: [State] is the state of the file
    system and of the process, and the calls the two context managers make
    are functions on it.  A [with] block is the context manager applied to
    its body. *)

Record system (State : Type) : Type := {
  getcwd : State -> result string;
  chdir : string -> State -> result unit * State;
  gettempdir : State -> string;
  mkdtemp : string -> State -> result string * State;
  rmtree : string -> State -> result unit * State
}.
Arguments getcwd {State} s.
Arguments chdir {State} s.
Arguments gettempdir {State} s.
Arguments mkdtemp {State} s.
Arguments rmtree {State} s.

Definition startswith (c : ascii) (s : string) : bool :=
  match s with
  | String x _ => Ascii.eqb x c
  | EmptyString => false
  end.

(** [os.path.join(a, b)] on POSIX. *)
Definition path_join (a b : string) : string :=
  if startswith "/" b then b
  else if String.eqb a "" || endswith "/" a then a +:+ b
  else a +:+ "/" +:+ b.

(** [x or default] for an [x] that is [None] or a string. *)
Definition or_default (x : option string) (default : string) : string :=
  if truthy x then str_key x else default.

Section WithSystem.
Context {State : Type}.
Variable sys : system State.

(** [with SafeTemporaryFileName(name, parent_dir) as path: body].  The
    generator has no [try]: an exception of the body leaves it at the
    [yield], and [shutil.rmtree] is not reached. *)
Definition SafeTemporaryFileName {A : Type} (name parent_dir : option string)
    (body : string -> State -> result A * State) : State -> result A * State :=
  fun s =>
    let parent_dir := or_default parent_dir (gettempdir sys s) in
    let name := or_default name "temp_file" in
    match mkdtemp sys parent_dir s with
    | (Raise e, s1) => (Raise e, s1)
    | (Ok dirname, s1) =>
        let path := path_join dirname name in
        match body path s1 with
        | (Raise e, s2) => (Raise e, s2)
        | (Ok a, s2) =>
            match rmtree sys dirname s2 with
            | (Raise e, s3) => (Raise e, s3)
            | (Ok _, s3) => (Ok a, s3)
            end
        end
    end.

(** [with change_to_directory(name): body].  [os.chdir(name)] and the
    [yield] are inside the [try]; the [finally] runs [os.chdir(old_cwd)]
    on every way out, and an exception it raises replaces the pending
    one. *)
Definition change_to_directory {A : Type} (name : string)
    (body : State -> result A * State) : State -> result A * State :=
  fun s =>
    match getcwd sys s with
    | Raise e => (Raise e, s)
    | Ok old_cwd =>
        let '(r, s1) :=
          match chdir sys name s with
          | (Ok _, s1) => body s1
          | (Raise e, s1) => (Raise e, s1)
          end in
        match chdir sys old_cwd s1 with
        | (Ok _, s2) => (r, s2)
        | (Raise e, s2) => (Raise e, s2)
        end
    end.

End WithSystem.

(** *** ShiftedVisualizer *)

(** A Python object as far as [isinstance] looks at it: an instance of a
    class, or a class. *)
Inductive pyobject : Type :=
| Instance (cls : string)
| Class (name : string).

(** [isinstance(obj, classinfo)]: the second argument has to be a class;
    [instance_of] is the class hierarchy. *)
Definition isinstance (instance_of : pyobject -> string -> bool)
    (obj classinfo : pyobject) : result bool :=
  match classinfo with
  | Class c => Ok (instance_of obj c)
  | Instance _ => Raise TypeError
  end.

Module ShiftedVisualizer.
Section WithArrays.
Context {VA : Type}.

(** One call of [original_visualizer.visualize(data, *args, **kwargs)]. *)
Record vcall : Type := {
  data : list VA;
  args : list value;
  kwargs : gmap string value
}.

(** An operator: the object, and what [apply] returns. *)
Record operator : Type := {
  object : pyobject;
  apply : VA -> result VA
}.

Record t : Type := mk {
  original_visualizer : vcall -> result unit;
  shift : operator
}.

(** The argument [U] of [visualize]: one [VectorArray] or a sequence of
    them. *)
Inductive vectors : Type :=
| One (u : VA)
| Many (us : list VA).

Variable instance_of : pyobject -> string -> bool.

(** [self.__auto_init(locals())] belongs to the missing
    [pymor/core/base.py] and is a parameter. *)
Variable auto_init : (vcall -> result unit) -> operator -> result t.

Definition __init__ (original_visualizer : vcall -> result unit)
    (shift : operator) : result t :=
  _ <-- py_assert (isinstance instance_of (Class "Operator") (object shift)) ;
  auto_init original_visualizer shift.

(** [[f(u) for u in us]] *)
Fixpoint comprehension (f : VA -> result VA) (us : list VA) : result (list VA) :=
  match us with
  | [] => Ok []
  | u :: us' => v <-- f u ; vs <-- comprehension f us' ; Ok (v :: vs)
  end.

(** [str(v)], as an f-string formats [v]. *)
Variable str : value -> string.

(** The calls made to the wrapped visualizer are appended to a log. *)
Definition visualize (self : t) (U : vectors) (args : list value)
    (kwargs : gmap string value) (log : list vcall)
  : result unit * list vcall :=
  let U := match U with One u => [u] | Many us => us end in
  match comprehension (apply (shift self)) U with
  | Raise e => (Raise e, log)
  | Ok shifted =>
      let call1 := {| data := shifted; args := args; kwargs := kwargs |} in
      match original_visualizer self call1 with
      | Raise e => (Raise e, (log ++ [call1])%list)
      | Ok _ =>
          match kwargs !! "filename" with
          | Some fn =>
              let kwargs := delete "filename" kwargs in
              let call2 :=
                {| data := U; args := args;
                   kwargs := <[ "filename" := VStr ("notshifted_" +:+ str fn) ]> kwargs |} in
              (original_visualizer self call2, (log ++ [call1; call2])%list)
          | None => (Ok tt, (log ++ [call1])%list)
          end
      end
  end.

End WithArrays.
End ShiftedVisualizer.

End io.

(** A small file system for examples: a Matrix Market file, a text file and
    an NPZ archive with the entries [A] and [B]; objects are numbered. *)
Definition sample_files : io.library Z :=
  {| io.is_ndarray := fun _ => true;
     io.issparse := fun _ => false;
     io.tocsc := fun o => o;
     io.loadmat := fun _ => Raise ValueError;
     io.mmread := fun p => if String.eqb p "m.mtx" then Ok 42 else Raise ValueError;
     io.np_load := fun p =>
       if String.eqb p "m.npz" then Ok (io.Mapping {[ "A" := 1; "B" := 2 ]})
       else Raise (IOError "No such file");
     io.np_loadtxt := fun p => if String.eqb p "m.txt" then Ok 7 else Raise ValueError |}.

(** ** Notions used to state properties *)

(** [c in s] *)
Fixpoint contains (c : ascii) (s : string) : bool :=
  match s with
  | EmptyString => false
  | String x s' => Ascii.eqb x c || contains c s'
  end.


(** The loaders that [load_matrix] tries when it detects no format, in the
    order of the source. *)
Definition all_loaders {Obj : Type} (lib : io.library Obj) : list (io.loader (Obj := Obj)) :=
  [io._loadmat lib; io._mmread lib; io._loadtxt lib; io._load lib].

(** The live entries of [file_format_map]: the loader of a four-character
    extension. *)
Definition loader_for {Obj : Type} (lib : io.library Obj) (ext : string)
  : option (io.loader (Obj := Obj)) :=
  if String.eqb ext ".mat" then Some (io._loadmat lib)
  else if String.eqb ext ".mtx" then Some (io._mmread lib)
  else if String.eqb ext ".npy" || String.eqb ext ".npz" then Some (io._load lib)
  else if String.eqb ext ".txt" then Some (io._loadtxt lib)
  else None.

(** The position of the entry [cs] in the row-major data of an array of
    shape [shape]. *)
Fixpoint flat_index (cs shape : list Z) : Z :=
  match cs, shape with
  | c :: cs', _ :: rest => c * product rest + flat_index cs' rest
  | _, _ => 0
  end.

(** A file system on which [np.load] refuses every file with a
    [ValueError], and a MATLAB file [m.mat] with a header and the
    matrices [A] (object 1) and, under [two.mat], also [B] (object 2);
    negative objects are not matrices. *)
Definition sample_matlab : io.library Z :=
  {| io.is_ndarray := fun o => 0 <=? o;
     io.issparse := fun _ => false;
     io.tocsc := fun o => o;
     io.loadmat := fun p =>
       if String.eqb p "m.mat" then Ok {[ "__header__" := -1; "A" := 1 ]}
       else if String.eqb p "two.mat"
       then Ok {[ "__header__" := -1; "A" := 1; "B" := 2 ]}
       else Raise ValueError;
     io.mmread := fun _ => Raise ValueError;
     io.np_load := fun _ => Raise ValueError;
     io.np_loadtxt := fun _ => Raise ValueError |}.

(** A file system with one plain array, [v.npy]. *)
Definition sample_array : io.library Z :=
  {| io.is_ndarray := fun _ => true;
     io.issparse := fun _ => false;
     io.tocsc := fun o => o;
     io.loadmat := fun _ => Raise ValueError;
     io.mmread := fun _ => Raise ValueError;
     io.np_load := fun p =>
       if String.eqb p "v.npy" then Ok (io.Single 5) else Raise (IOError "No such file");
     io.np_loadtxt := fun _ => Raise ValueError |}.

(** A process for examples: the state is the working directory and the
    list of temporary directories that exist; [/home] and [/data] are the
    directories one can change to. *)
Definition sample_system : io.system (string * list string) :=
  {| io.getcwd := fun s => Ok s.1;
     io.chdir := fun d s =>
       if existsb (String.eqb d) ["/home"; "/data"] then (Ok tt, (d, s.2))
       else (Raise (IOError "No such file or directory"), s);
     io.gettempdir := fun _ => "/tmp";
     io.mkdtemp := fun parent s =>
       (Ok (parent +:+ "/tmpdir"), (s.1, (parent +:+ "/tmpdir") :: s.2));
     io.rmtree := fun d s =>
       (Ok tt, (s.1, List.filter (fun d' => negb (String.eqb d d')) s.2)) |}.

Module PPF := ProjectionParameterFunctional.
Module GPF := GenericParameterFunctional.
Module EPF := ExpressionParameterFunctional.
Module PFI := ParameterFunctionalInterface.
Module SV := io.ShiftedVisualizer.

(** * Properties *)

(** ** The embedding on small inputs *)

Example parse_product :
  compile cpython "2*x" = Ok (EBin Mul (ENum 2) (EName "x")).
Proof. vm_compute. reflexivity. Qed.

Example parse_attribute_call :
  compile cpython "os.system('x')"
  = Ok (ECall (attr_chain "os" ["system"]) [EStr "x"]).
Proof. vm_compute. reflexivity. Qed.

Example parse_precedence :
  compile cpython "a - -f(1, 2)*(b + 3)"
  = Ok (EBin Sub (EName "a")
          (EBin Mul (ENeg (ECall (EName "f") [ENum 1; ENum 2]))
             (EBin Add (EName "b") (ENum 3)))).
Proof. vm_compute. reflexivity. Qed.

(** A whitelisted function applied to a parameter: the float that numpy
    computes stays symbolic. *)
Example evaluate_sin :
  exists f,
    EPF.__init__ cpython "sin(x)" {[ "x" := ShapeNumber 0 ]} None = Ok f
    /\ (EPF.evaluate f (Some {[ "x" := VInt 2 ]}) EPF.initial_world).1
       = Ok (VSym "call" [VFunc "numpy.sin"; VArray [] [2]]).
Proof. eexists. split; [reflexivity|]. vm_compute. reflexivity. Qed.

(** A value that misses the declared name is rejected. *)
Example evaluate_type_mismatch :
  exists f,
    PPF.__init__ Py3 "x" (ShapeNumber 0) None None = Ok f
    /\ PPF.evaluate f (Some {[ "y" := VInt 1 ]}) = Raise (TypeMismatch "x").
Proof. eexists. split; [reflexivity|]. vm_compute. reflexivity. Qed.

Example suffixes_of_paths :
  io.suffixes "data/M.MTX" = [".MTX"]
  /\ io.suffixes "a.b/m.mtx.gz" = [".mtx"; ".gz"]
  /\ io.suffixes "archive" = []
  /\ io.detect_extension "archive" = Raise IndexError.
Proof. repeat split; vm_compute; reflexivity. Qed.

(** ** Parameter validation *)

Lemma find_all_false {A : Type} (f : A -> bool) (l : list A) :
  (forall x, x ∈ l -> f x = false) -> List.find f l = None.
Proof.
  induction l as [|a l IH]; intros H; simpl; [reflexivity|].
  rewrite (H a) by apply list_elem_of_here.
  apply IH. intros x Hx. apply H. by apply list_elem_of_further.
Qed.

Lemma validate_declared (s d : list Z) :
  PFI.validate s (Some (VArray s d)) = Some (VArray s d).
Proof. unfold PFI.validate. simpl. by rewrite decide_True. Qed.

(** A conforming value passes validation unchanged. *)
Lemma parse_parameter_conforms (pt : gmap string (list Z)) (v : gmap string value) :
  PFI.conforms pt v -> PFI.parse_parameter pt (Some v) = Ok v.
Proof.
  intros Hc. unfold PFI.parse_parameter.
  rewrite find_all_false.
  - f_equal. apply map_eq. intros k.
    rewrite map_lookup_imap. specialize (Hc k).
    destruct (pt !! k) as [s|]; simpl.
    + destruct Hc as [d ->]. apply validate_declared.
    + by rewrite Hc.
  - intros [k s] Hin. apply elem_of_map_to_list in Hin.
    specialize (Hc k). rewrite Hin in Hc. destruct Hc as [d Hd].
    unfold PFI.offending. simpl. rewrite Hd. by rewrite validate_declared.
Qed.

Lemma build_singleton (k : string) (s : list Z) :
  PFI.build_parameter_type {[ k := ShapeTuple s ]} = {[ k := s ]}.
Proof. unfold PFI.build_parameter_type. by rewrite map_fmap_singleton. Qed.

Lemma conforms_singleton (k : string) (s d : list Z) :
  PFI.conforms {[ k := s ]} {[ k := VArray s d ]}.
Proof.
  intros j. destruct (decide (k = j)) as [->|Hne].
  - rewrite !lookup_singleton_eq. by exists d.
  - by rewrite !lookup_singleton_ne.
Qed.

(** ** ProjectionParameterFunctional *)

(** Selecting position [c] of a one-dimensional array. *)
Lemma np_getitem_vector (n c x : Z) (d : list Z) :
  0 <= c < n -> d !! Z.to_nat c = Some x ->
  np_getitem (VArray [n] d) (IndexTuple [c]) = Ok (VInt x).
Proof.
  intros Hc Hx. unfold np_getitem, index_axes, index_axis.
  assert ((c <? 0) = false) as -> by lia.
  assert ((0 <=? c) && (c <? n) = true) as -> by lia.
  simpl. rewrite Nat.mul_1_r.
  rewrite (drop_S _ _ _ Hx).
  change (Z.to_nat 1) with 1%nat. reflexivity.
Qed.

(** C5: for every projection functional and every value [v] conforming to
    its parameter type, [evaluate] returns [v[parameter_name]] when
    [coordinates] is [None] and [v[parameter_name][coordinates]] otherwise.
    [evaluate] is a function of the functional and the value alone, and it
    only reads [v]. *)
Theorem projection_evaluate_selects (self : PPF.t) (v : gmap string value) :
  PFI.conforms (PPF.parameter_type self) v ->
  PPF.evaluate self (Some v) =
    match PPF.coordinates self with
    | None => dict_getitem v (PPF.parameter_name self)
    | Some c => a <-- dict_getitem v (PPF.parameter_name self) ; np_getitem a c
    end.
Proof.
  intros Hc. unfold PPF.evaluate.
  rewrite (parse_parameter_conforms _ _ Hc). reflexivity.
Qed.

Lemma projection_evaluate_selects_witness :
  let self := PPF.mk None {[ "x" := [3] ]} "x" (Some (IndexTuple [1])) true in
  let v : gmap string value := {[ "x" := VArray [3] [10; 20; 30] ]} in
  PFI.conforms (PPF.parameter_type self) v /\
  PPF.evaluate self (Some v) = Ok (VInt 20).
Proof.
  intros self v.
  assert (PFI.conforms (PPF.parameter_type self) v) as Hc
    by apply conforms_singleton.
  split; [exact Hc|].
  exact (eq_trans (projection_evaluate_selects self v Hc) eq_refl).
Defined.

Lemma tuple_ltb_single (c n : Z) : tuple_ltb [c] [n] = (c <? n).
Proof.
  simpl. destruct (Z.eqb_spec c n) as [->|Hne]; [|reflexivity].
  symmetry. apply Z.ltb_irrefl.
Qed.

Lemma product_nonneg (s : list Z) :
  Forall (fun x => 0 <= x) s -> 0 <= product s.
Proof.
  induction 1 as [|x s Hx _ IH]; unfold product in *; simpl; [lia|].
  by apply Z.mul_nonneg_nonneg.
Qed.

Lemma sum_nonneg (s : list Z) :
  Forall (fun x => 0 <= x) s -> 0 <= sum s.
Proof.
  induction 1 as [|x s Hx _ IH]; unfold sum in *; simpl; lia.
Qed.

(** More than one element means extents that sum to more than one. *)
Lemma product_gt_1_sum (s : list Z) :
  Forall (fun x => 0 <= x) s -> 1 < product s -> 1 < sum s.
Proof.
  induction 1 as [|x s Hx Hs IH]; [unfold product; simpl; lia|].
  pose proof (product_nonneg s Hs) as Hp.
  pose proof (sum_nonneg s Hs) as Hsum.
  change (product (x :: s)) with (x * product s).
  change (sum (x :: s)) with (x + sum s).
  intros Hgt.
  destruct (decide (x = 1)) as [->|Hx1]; [lia|].
  destruct (decide (x = 0)) as [->|Hx0]; [lia|].
  lia.
Qed.

(** C3, as the code has it: when the declared shape has more than one
    element, construction without coordinates raises [AssertionError].
    With coordinates given as a tuple and a one-dimensional shape [(n,)],
    construction raises [AssertionError] for [(c,)] with [c >= n]; for
    [(c,)] with [c < n] it succeeds, and [evaluate] then selects position
    [c] of a conforming value.  This holds under both Python versions. *)
Theorem projection_tuple_coordinates_checked
    (ver : py_version) (pname : string) (shape : shape_arg)
    (nm : option string) :
  Forall (fun x => 0 <= x) (PFI.normalize_shape shape) ->
  1 < product (PFI.normalize_shape shape) ->
  PPF.__init__ ver pname shape None nm = Raise AssertionError
  /\ forall n c : Z,
       PFI.normalize_shape shape = [n] ->
       (n <= c ->
        PPF.__init__ ver pname shape (Some (IndexTuple [c])) nm
        = Raise AssertionError)
       /\ (c < n ->
           exists obj,
             PPF.__init__ ver pname shape (Some (IndexTuple [c])) nm = Ok obj
             /\ forall (d : list Z) (x : Z),
                  0 <= c -> d !! Z.to_nat c = Some x ->
                  PPF.evaluate obj (Some {[ pname := VArray [n] d ]})
                  = Ok (VInt x)).
Proof.
  intros Hnn Hcount.
  pose proof (product_gt_1_sum _ Hnn Hcount) as Hsum.
  unfold PPF.__init__.
  change (match shape with
          | ShapeNumber n0 => if n0 =? 0 then [] else [n0]
          | ShapeTuple s => s
          end) with (PFI.normalize_shape shape).
  assert ((1 <? sum (PFI.normalize_shape shape)) = true) as -> by lia.
  split; [reflexivity|].
  intros n c Hs. rewrite Hs in *.
  assert (1 < n) as Hn by (unfold sum in Hsum; simpl in Hsum; lia).
  split.
  - intros Hc. unfold index_lt. rewrite tuple_ltb_single.
    assert ((c <? n) = false) as -> by lia. reflexivity.
  - intros Hc. unfold index_lt. rewrite tuple_ltb_single.
    assert ((c <? n) = true) as -> by lia. simpl.
    eexists. split; [reflexivity|].
    intros d x Hc0 Hx. unfold PPF.evaluate.
    cbn [PPF.parameter_type PPF.coordinates PPF.parameter_name].
    rewrite build_singleton.
    rewrite (parse_parameter_conforms _ _ (conforms_singleton pname [n] d)).
    cbn [rbind]. unfold dict_getitem. rewrite lookup_singleton_eq. cbn [rbind].
    apply np_getitem_vector; [lia|assumption].
Qed.

Lemma projection_tuple_coordinates_checked_witness :
  PPF.__init__ Py3 "x" (ShapeTuple [3]) None None = Raise AssertionError
  /\ PPF.__init__ Py3 "x" (ShapeTuple [3]) (Some (IndexTuple [5])) None
     = Raise AssertionError
  /\ exists obj,
       PPF.__init__ Py3 "x" (ShapeTuple [3]) (Some (IndexTuple [1])) None = Ok obj
       /\ PPF.evaluate obj (Some {[ "x" := VArray [3] [10; 20; 30] ]})
          = Ok (VInt 20).
Proof.
  assert (Forall (fun x => 0 <= x) (PFI.normalize_shape (ShapeTuple [3]))) as Hnn
    by (repeat constructor; lia).
  assert (1 < product (PFI.normalize_shape (ShapeTuple [3]))) as Hcount
    by (vm_compute; reflexivity).
  destruct (projection_tuple_coordinates_checked Py3 "x" (ShapeTuple [3]) None
              Hnn Hcount) as (Hnone & Hone).
  destruct (Hone 3 5 eq_refl) as (Hbig & _).
  destruct (Hone 3 1 eq_refl) as (_ & Hok).
  split; [exact Hnone|]. split; [apply Hbig; lia|].
  destruct Hok as (obj & Hobj & Hev); [lia|].
  exists obj. split; [exact Hobj|].
  apply Hev; [lia|reflexivity].
Defined.

(** C3 as stated fails for integer coordinates: under Python 3 the valid
    coordinate [1] is rejected with [TypeError]; under Python 2 the
    out-of-range coordinate [5] is accepted and only [evaluate] fails. *)
Lemma projection_int_coordinates_counterexample :
  PPF.__init__ Py3 "x" (ShapeTuple [3]) (Some (IndexInt 1)) None = Raise TypeError
  /\ exists obj,
       PPF.__init__ Py2 "x" (ShapeTuple [3]) (Some (IndexInt 5)) None = Ok obj
       /\ PPF.evaluate obj (Some {[ "x" := VArray [3] [10; 20; 30] ]})
          = Raise IndexError.
Proof.
  split; [reflexivity|].
  eexists. split; [reflexivity|]. vm_compute. reflexivity.
Qed.

(** C4, as the code has it: when the extents of the declared shape sum to
    at most 1 (shape [()] from a bare 0, shape [(1,)]) the constructor does
    not check [coordinates]; it stores the argument, and [evaluate] indexes
    with it whenever it is not [None]. *)
Theorem projection_small_shape_unchecked
    (ver : py_version) (pname : string) (shape : shape_arg)
    (coords : option index) (nm : option string) :
  sum (PFI.normalize_shape shape) <= 1 ->
  exists obj,
    PPF.__init__ ver pname shape coords nm = Ok obj
    /\ PPF.coordinates obj = coords
    /\ PPF.parameter_name obj = pname
    /\ PPF.parameter_type obj = {[ pname := PFI.normalize_shape shape ]}
    /\ forall (c : index) (mu : option (gmap string value)),
         coords = Some c ->
         PPF.evaluate obj mu =
           (m <-- PFI.parse_parameter {[ pname := PFI.normalize_shape shape ]} mu ;
            a <-- dict_getitem m pname ; np_getitem a c).
Proof.
  intros Hs. unfold PPF.__init__.
  change (match shape with
          | ShapeNumber n0 => if n0 =? 0 then [] else [n0]
          | ShapeTuple s => s
          end) with (PFI.normalize_shape shape).
  assert ((1 <? sum (PFI.normalize_shape shape)) = false) as -> by lia.
  simpl. eexists. split; [reflexivity|]. simpl.
  rewrite build_singleton. repeat split.
  intros c mu ->. unfold PPF.evaluate. simpl. reflexivity.
Qed.

Lemma projection_small_shape_unchecked_witness :
  exists obj,
    PPF.__init__ Py3 "x" (ShapeNumber 0) (Some (IndexInt 7)) None = Ok obj
    /\ PPF.coordinates obj = Some (IndexInt 7).
Proof.
  assert (sum (PFI.normalize_shape (ShapeNumber 0)) <= 1) as Hs by (vm_compute; discriminate).
  destruct (projection_small_shape_unchecked Py3 "x" (ShapeNumber 0)
              (Some (IndexInt 7)) None Hs) as (obj & Hobj & Hc & _).
  exists obj. split; [exact Hobj|exact Hc].
Defined.

(** C4 as stated fails: with shape [()] a supplied coordinate makes
    [evaluate] raise where it returns the value without one; with shape
    [(1,)] it makes [evaluate] return the element instead of the array. *)
Lemma projection_coordinates_used_counterexample :
  (exists with_c without_c,
     PPF.__init__ Py3 "x" (ShapeNumber 0) (Some (IndexInt 0)) None = Ok with_c
     /\ PPF.__init__ Py3 "x" (ShapeNumber 0) None None = Ok without_c
     /\ PPF.evaluate without_c (Some {[ "x" := VArray [] [5] ]})
        = Ok (VArray [] [5])
     /\ PPF.evaluate with_c (Some {[ "x" := VArray [] [5] ]})
        = Raise IndexError)
  /\ (exists with_c without_c,
        PPF.__init__ Py3 "x" (ShapeTuple [1]) (Some (IndexTuple [0])) None = Ok with_c
        /\ PPF.__init__ Py3 "x" (ShapeTuple [1]) None None = Ok without_c
        /\ PPF.evaluate without_c (Some {[ "x" := VArray [1] [7] ]})
           = Ok (VArray [1] [7])
        /\ PPF.evaluate with_c (Some {[ "x" := VArray [1] [7] ]})
           = Ok (VInt 7)).
Proof.
  split; do 2 eexists; (split; [reflexivity|]); (split; [reflexivity|]);
    split; vm_compute; reflexivity.
Qed.

(** ** GenericParameterFunctional *)

(** C6: [evaluate] validates the value against the declared parameter type
    and returns what the mapping returns on the validated value.  When
    validation fails, the validation error is the result and the world is
    untouched, whatever the mapping is: the mapping has not run.  When the
    mapping raises, its exception and the world it leaves are the result of
    [evaluate], unchanged. *)
Theorem generic_evaluate_transparent
    (self : GPF.t) (mu : option (gmap string value)) (w : world) :
  (forall e, PFI.parse_parameter (GPF.parameter_type self) mu = Raise e ->
     forall mapping' : gmap string value -> M value,
       GPF.evaluate
         (GPF.mk (GPF.name self) mapping' (GPF.parameter_type self) (GPF.locked self))
         mu w = (Raise e, w))
  /\ (forall mu', PFI.parse_parameter (GPF.parameter_type self) mu = Ok mu' ->
        GPF.evaluate self mu w = GPF._mapping self mu' w
        /\ forall e w', GPF._mapping self mu' w = (Raise e, w') ->
             GPF.evaluate self mu w = (Raise e, w')).
Proof.
  split.
  - intros e He mapping'. unfold GPF.evaluate. simpl. by rewrite He.
  - intros mu' Hmu.
    assert (GPF.evaluate self mu w = GPF._mapping self mu' w) as Heq.
    { unfold GPF.evaluate. by rewrite Hmu. }
    split; [exact Heq|]. intros e w' Hraise. by rewrite Heq.
Qed.

Lemma generic_evaluate_transparent_witness :
  let failing : gmap string value -> M value :=
    fun _ w => (Raise ValueError, {| functions := ∅; calls := calls w |}) in
  let self := GPF.__init__ failing {[ "x" := ShapeNumber 0 ]} None in
  GPF.evaluate self (Some {[ "y" := VInt 1 ]}) EPF.initial_world
    = (Raise (TypeMismatch "x"), EPF.initial_world)
  /\ GPF.evaluate self (Some {[ "x" := VInt 1 ]}) EPF.initial_world
     = (Raise ValueError, {| functions := ∅; calls := [] |}).
Proof.
  intros failing self. split.
  - destruct (generic_evaluate_transparent self (Some {[ "y" := VInt 1 ]})
                EPF.initial_world) as [Hfail _].
    apply (Hfail (TypeMismatch "x") eq_refl failing).
  - destruct (generic_evaluate_transparent self (Some {[ "x" := VInt 1 ]})
                EPF.initial_world) as [_ Hrun].
    destruct (Hrun {[ "x" := VArray [] [1] ]} eq_refl) as [_ Hraise].
    apply Hraise. reflexivity.
Defined.

(** ** ExpressionParameterFunctional *)

Lemma expression_init_inv (rt : runtime) (expression : string)
    (pt : gmap string shape_arg) (nm : option string) (f : EPF.t) :
  EPF.__init__ rt expression pt nm = Ok f ->
  exists code,
    compile rt expression = Ok code
    /\ f = EPF.mk expression (GPF.__init__ (fun mu => py_eval rt code mu) pt nm).
Proof.
  unfold EPF.__init__. destruct (compile rt expression) as [code|e]; simpl.
  - intros [= <-]. by exists code.
  - discriminate.
Qed.

(** C7: when the expression does not compile, the constructor raises the
    compiler's error and no functional exists on which [evaluate] could be
    called; a functional that was constructed holds compiled code, and its
    mapping only evaluates that code. *)
Theorem expression_syntax_checked_at_construction
    (rt : runtime) (expression : string) (pt : gmap string shape_arg)
    (nm : option string) :
  (forall e, compile rt expression = Raise e ->
     EPF.__init__ rt expression pt nm = Raise e)
  /\ (forall f, EPF.__init__ rt expression pt nm = Ok f ->
        exists code,
          compile rt expression = Ok code
          /\ forall mu, GPF._mapping (EPF.base f) mu = py_eval rt code mu).
Proof.
  split.
  - intros e He. unfold EPF.__init__. by rewrite He.
  - intros f Hf. destruct (expression_init_inv _ _ _ _ _ Hf) as (code & Hc & ->).
    exists code. split; [exact Hc|reflexivity].
Qed.

Lemma expression_syntax_checked_at_construction_witness :
  compile cpython "2*" = Raise SyntaxError
  /\ EPF.__init__ cpython "2*" {[ "x" := ShapeNumber 0 ]} None = Raise SyntaxError.
Proof.
  assert (compile cpython "2*" = Raise SyntaxError) as Hc by (vm_compute; reflexivity).
  split; [exact Hc|].
  exact (proj1 (expression_syntax_checked_at_construction cpython "2*"
                  {[ "x" := ShapeNumber 0 ]} None) SyntaxError Hc).
Defined.




(** With a parameter named like a whitelisted function, a call through the
    name reaches the parameter's array, which is not callable. *)
Example shadowed_function_not_callable :
  exists f,
    EPF.__init__ cpython "sin(1)" {[ "sin" := ShapeNumber 0 ]} None = Ok f
    /\ (EPF.evaluate f (Some {[ "sin" := VInt 5 ]}) EPF.initial_world).1
       = Raise TypeError.
Proof. eexists. split; [reflexivity|]. vm_compute. reflexivity. Qed.

Lemma eval_attr_raises (rt : runtime) (locals globals : gmap string value)
    (e : expr) (attr : string) (x : exc) (cs : list call) :
  eval_expr rt locals globals e = (Raise x, cs) ->
  eval_expr rt locals globals (EAttr e attr) = (Raise x, cs).
Proof. intros H. simpl. by rewrite H. Qed.

Lemma eval_callee_raises (rt : runtime) (locals globals : gmap string value)
    (f : expr) (args : list expr) (x : exc) (cs : list call) :
  eval_expr rt locals globals f = (Raise x, cs) ->
  eval_expr rt locals globals (ECall f args) = (Raise x, cs).
Proof. intros H. simpl. by rewrite H. Qed.

Lemma eval_attrs_raise (rt : runtime) (locals globals : gmap string value)
    (attrs : list string) (e : expr) (x : exc) (cs : list call) :
  eval_expr rt locals globals e = (Raise x, cs) ->
  eval_expr rt locals globals (fold_left EAttr attrs e) = (Raise x, cs).
Proof.
  revert e. induction attrs as [|a attrs IH]; intros e H; simpl fold_left.
  - exact H.
  - apply IH. by apply eval_attr_raises.
Qed.

Lemma load_name_unbound (rt : runtime) (locals globals : gmap string value)
    (n : string) :
  locals !! n = None -> globals !! n = None -> builtins rt !! n = None ->
  load_name rt locals globals n = Raise (NameError n).
Proof.
  intros Hl Hg Hb. unfold load_name. rewrite Hl, Hg, Hb.
  destruct (globals !! "__builtins__") as [[]|]; reflexivity.
Qed.

(** C1, as the code has it: a name is looked up in the parameter bindings,
    then in the function dictionary, then in Python's builtins, which
    [eval] has inserted into that dictionary under [__builtins__].  An
    expression that calls a name, or an attribute of a name, bound in none
    of the three fails at evaluation with [NameError] and calls nothing. *)
Theorem expression_namespace
    (rt : runtime) (expression : string) (pt : gmap string shape_arg)
    (nm : option string) (f : EPF.t) (mu : option (gmap string value))
    (mu' : gmap string value) (w : world) :
  EPF.__init__ rt expression pt nm = Ok f ->
  PFI.parse_parameter (PFI.build_parameter_type pt) mu = Ok mu' ->
  let globals := ensure_builtins (functions w) in
  (forall n v,
     load_name rt mu' globals n = Ok v <->
     mu' !! n = Some v
     \/ (mu' !! n = None /\ globals !! n = Some v)
     \/ (mu' !! n = None /\ globals !! n = None
         /\ globals !! "__builtins__" = Some VBuiltins
         /\ builtins rt !! n = Some v))
  /\ (forall n attrs args,
        compile rt expression = Ok (ECall (attr_chain n attrs) args) ->
        mu' !! n = None -> globals !! n = None -> builtins rt !! n = None ->
        EPF.evaluate f mu w
        = (Raise (NameError n), {| functions := globals; calls := calls w |})).
Proof.
  intros Hf Hmu globals. split.
  - intros n v. unfold load_name.
    destruct (mu' !! n) as [vl|] eqn:Hl.
    { split; [intros [= ->]; by left|].
      intros [[= ->]|[[? _]|[? _]]]; [reflexivity|discriminate..]. }
    destruct (globals !! n) as [vg|] eqn:Hg.
    { split; [intros [= ->]; right; left; done|].
      intros [?|[[_ [= ->]]|(_ & ? & _)]]; [discriminate|reflexivity|discriminate]. }
    destruct (globals !! "__builtins__") as [b|] eqn:Hb.
    + destruct b;
        try (split; [discriminate|];
             intros [?|[[_ ?]|(_ & _ & ? & _)]]; discriminate).
      destruct (builtins rt !! n) as [vb|] eqn:Hn.
      * split; [intros [= ->]; right; right; done|].
        intros [?|[[_ ?]|(_ & _ & _ & [= ->])]]; [discriminate..|reflexivity].
      * split; [discriminate|].
        intros [?|[[_ ?]|(_ & _ & _ & ?)]]; discriminate.
    + split; [discriminate|].
      intros [?|[[_ ?]|(_ & _ & ? & _)]]; discriminate.
  - intros n attrs args Hc Hl Hg Hb.
    destruct (expression_init_inv _ _ _ _ _ Hf) as (code & Hc' & ->).
    rewrite Hc in Hc'. injection Hc' as <-.
    unfold EPF.evaluate, GPF.evaluate. simpl.
    rewrite Hmu. unfold py_eval. fold globals.
    rewrite (eval_callee_raises rt mu' globals (attr_chain n attrs) args
               (NameError n) []).
    + by rewrite app_nil_r.
    + apply eval_attrs_raise. simpl. unfold elift.
      by rewrite (load_name_unbound _ _ _ _ Hl Hg Hb).
Qed.

Lemma expression_namespace_witness :
  exists f,
    EPF.__init__ cpython "os.system('x')" ∅ None = Ok f
    /\ EPF.evaluate f (Some ∅) EPF.initial_world
       = (Raise (NameError "os"),
          {| functions := ensure_builtins EPF.functions0; calls := [] |}).
Proof.
  eexists. split; [reflexivity|].
  refine (proj2 (expression_namespace cpython "os.system('x')" ∅ None _
                   (Some ∅) ∅ EPF.initial_world eq_refl _)
            "os" ["system"] [EStr "x"] _ _ _ _);
    vm_compute; reflexivity.
Defined.

(** C1 as stated fails: [abs] is not in the function dictionary, yet an
    expression calling it evaluates; [__import__] is reachable, so an
    expression can import a module and call into it. *)
Lemma expression_builtins_reachable_counterexample :
  EPF.functions0 !! "abs" = None
  /\ EPF.functions0 !! "__import__" = None
  /\ (exists f,
        EPF.__init__ cpython "abs(x)" {[ "x" := ShapeNumber 0 ]} None = Ok f
        /\ (EPF.evaluate f (Some {[ "x" := VInt (-5) ]}) EPF.initial_world).1
           = Ok (VInt 5))
  /\ (exists f w,
        EPF.__init__ cpython "__import__('os').system('x')" ∅ None = Ok f
        /\ EPF.evaluate f (Some ∅) EPF.initial_world
           = (Ok (VSym "call" [VSym "getattr" [VModule "os"; VStr "system"];
                               VStr "x"]), w)
        /\ functions w !! "__builtins__" = Some VBuiltins
        /\ calls w = [ (VFunc "__import__", [VStr "os"]);
                       (VSym "getattr" [VModule "os"; VStr "system"], [VStr "x"]) ]).
Proof.
  split; [vm_compute; reflexivity|].
  split; [vm_compute; reflexivity|].
  split.
  - eexists. split; [reflexivity|]. vm_compute. reflexivity.
  - do 2 eexists. split; [reflexivity|].
    split; [vm_compute; reflexivity|].
    split; vm_compute; reflexivity.
Qed.

Lemma build_parameter_type_stored (pt : gmap string shape_arg) :
  PFI.build_parameter_type (ShapeTuple <$> PFI.build_parameter_type pt)
  = PFI.build_parameter_type pt.
Proof.
  unfold PFI.build_parameter_type. apply map_eq. intros k.
  rewrite !lookup_fmap. by destruct (pt !! k).
Qed.

(** C2: the state of a constructed functional is the triple of its
    expression, its parameter type and its name; [__setstate__] is the
    constructor applied to that triple, it succeeds, and the functional it
    yields is the original one, so both evaluate alike on every input and
    in every world.  For ["2*x"] over [{"x": 0}] named ["f"], the restored
    functional maps [{"x": 5}] to 10. *)
Theorem expression_state_roundtrip :
  (forall (rt : runtime) (expression : string) (pt : gmap string shape_arg)
          (nm : option string) (f : EPF.t),
     EPF.__init__ rt expression pt nm = Ok f ->
     EPF.__getstate__ f = (expression, PFI.build_parameter_type pt, nm)
     /\ EPF.__setstate__ rt (EPF.__getstate__ f)
        = EPF.__init__ rt expression
            (ShapeTuple <$> PFI.build_parameter_type pt) nm
     /\ exists g,
          EPF.__setstate__ rt (EPF.__getstate__ f) = Ok g
          /\ g = f
          /\ forall mu w, EPF.evaluate g mu w = EPF.evaluate f mu w)
  /\ (exists f g,
        EPF.__init__ cpython "2*x" {[ "x" := ShapeNumber 0 ]} (Some "f") = Ok f
        /\ EPF.__getstate__ f = ("2*x", {[ "x" := [] ]}, Some "f")
        /\ EPF.__setstate__ cpython (EPF.__getstate__ f) = Ok g
        /\ (EPF.evaluate f (Some {[ "x" := VInt 5 ]}) EPF.initial_world).1
           = Ok (VInt 10)
        /\ (EPF.evaluate g (Some {[ "x" := VInt 5 ]}) EPF.initial_world).1
           = Ok (VInt 10)).
Proof.
  split.
  - intros rt expression pt nm f Hf.
    destruct (expression_init_inv _ _ _ _ _ Hf) as (code & Hc & ->).
    assert (EPF.__setstate__ rt
              (EPF.__getstate__
                 (EPF.mk expression
                    (GPF.__init__ (fun mu => py_eval rt code mu) pt nm)))
            = Ok (EPF.mk expression
                    (GPF.__init__ (fun mu => py_eval rt code mu) pt nm))) as Hset.
    { unfold EPF.__setstate__, EPF.__getstate__, EPF.__init__. simpl.
      rewrite Hc. simpl. unfold GPF.__init__.
      by rewrite build_parameter_type_stored. }
    split; [reflexivity|]. split; [reflexivity|].
    eexists. split; [exact Hset|]. split; reflexivity.
  - do 2 eexists. split; [reflexivity|].
    split; [vm_compute; reflexivity|].
    split; [vm_compute; reflexivity|].
    split; vm_compute; reflexivity.
Qed.

Lemma expression_state_roundtrip_witness :
  exists f,
    EPF.__init__ cpython "minimum(x, 3)" {[ "x" := ShapeNumber 0 ]} None = Ok f
    /\ EPF.__setstate__ cpython (EPF.__getstate__ f) = Ok f
    /\ (EPF.evaluate f (Some {[ "x" := VInt 5 ]}) EPF.initial_world).1
       = Ok (VInt 3).
Proof.
  eexists. split; [reflexivity|].
  destruct (proj1 expression_state_roundtrip cpython "minimum(x, 3)"
              {[ "x" := ShapeNumber 0 ]} None _ eq_refl)
    as (_ & _ & g & Hg & -> & _).
  split; [exact Hg|]. vm_compute. reflexivity.
Defined.








(** ** Matrix loading *)

Lemma lower_len (s : string) : io.len (io.lower s) = io.len s.
Proof. unfold io.len. induction s as [|c s IH]; simpl; [reflexivity|by rewrite IH]. Qed.

Lemma from_end_last (l : list string) (x : string) :
  last l = Some x -> io.from_end l 1 = Ok x.
Proof.
  destruct l as [|y l'] using rev_ind; [discriminate|].
  rewrite last_snoc. intros [= ->].
  unfold io.from_end. by rewrite rev_unit.
Qed.

(** A path whose last suffix has four characters is dispatched on that
    suffix in lower case. *)
Lemma detect_extension_last (path sfx ext : string) :
  last (io.suffixes path) = Some sfx -> io.lower sfx = ext -> io.len ext = 4%nat ->
  io.detect_extension path = Ok (Some ext).
Proof.
  intros Hlast Hlow Hlen. unfold io.detect_extension.
  rewrite (from_end_last _ _ Hlast).
  destruct (io.suffixes path) as [|s0 l0] eqn:Hs; [discriminate|].
  cbn [List.length Nat.eqb rbind].
  rewrite <- lower_len, Hlow, Hlen. reflexivity.
Qed.

(** C10, as the code has it: for a path whose last suffix is [.mtx] or
    [.txt] (in any letter case) [load_matrix] raises [IOError] whenever the
    key is a non-empty string; for a path whose last suffix is [.npz] and
    that holds an archive, [load_matrix(path, key)] with a non-empty key
    returns the entry stored under the key when it is an array, and raises
    an [IOError] naming key and path when the key is absent. *)
Theorem load_matrix_key_handling {Obj : Type} (lib : io.library Obj)
    (path sfx : string) (key : option string) :
  last (io.suffixes path) = Some sfx ->
  io.truthy key = true ->
  (io.lower sfx = ".mtx" ->
   io.load_matrix lib path key
   = Raise (IOError ("Cannot specify " +:+ io.dquote +:+ "key" +:+ io.dquote
                     +:+ " for Matrix Market file")))
  /\ (io.lower sfx = ".txt" ->
      io.load_matrix lib path key
      = Raise (IOError ("Cannot specify " +:+ io.dquote +:+ "key" +:+ io.dquote
                        +:+ " for TXT file")))
  /\ (io.lower sfx = ".npz" ->
      forall d, io.np_load lib path = Ok (io.Mapping d) ->
        match d !! io.str_key key with
        | Some a =>
            io.load_matrix lib path key
            = if io.is_matrix lib a then Ok a
              else Raise (IOError ("Loaded data is not a matrix in NPY file "
                                   +:+ path))
        | None =>
            io.load_matrix lib path key
            = Raise (IOError (io.dquote +:+ io.str_key key +:+ io.dquote
                              +:+ " not found in NPY file " +:+ path))
        end).
Proof.
  intros Hlast Hkey. repeat split.
  - intros Hext. unfold io.load_matrix.
    rewrite (detect_extension_last _ _ _ Hlast Hext eq_refl).
    cbn [rbind]. change (Some ".mtx" ≫= (fun ext => io.file_format_map lib !! ext))
      with (Some ("Matrix Market", io._mmread lib)).
    unfold io._mmread. by rewrite Hkey.
  - intros Hext. unfold io.load_matrix.
    rewrite (detect_extension_last _ _ _ Hlast Hext eq_refl).
    cbn [rbind]. change (Some ".txt" ≫= (fun ext => io.file_format_map lib !! ext))
      with (Some ("Text", io._loadtxt lib)).
    unfold io._loadtxt. by rewrite Hkey.
  - intros Hext d Hload. unfold io.load_matrix.
    rewrite (detect_extension_last _ _ _ Hlast Hext eq_refl).
    cbn [rbind]. change (Some ".npz" ≫= (fun ext => io.file_format_map lib !! ext))
      with (Some ("NPY/NPZ", io._load lib)).
    unfold io._load. rewrite Hload. cbn [rbind]. rewrite Hkey.
    destruct (d !! io.str_key key); reflexivity.
Qed.

Lemma load_matrix_key_handling_witness :
  io.load_matrix sample_files "data/M.MTX" (Some "A")
  = Raise (IOError ("Cannot specify " +:+ io.dquote +:+ "key" +:+ io.dquote
                    +:+ " for Matrix Market file"))
  /\ io.load_matrix sample_files "m.npz" (Some "A") = Ok 1
  /\ io.load_matrix sample_files "m.npz" (Some "C")
     = Raise (IOError (io.dquote +:+ "C" +:+ io.dquote
                       +:+ " not found in NPY file m.npz")).
Proof.
  split; [|split].
  - exact (proj1 (load_matrix_key_handling sample_files "data/M.MTX" ".MTX"
                    (Some "A") eq_refl eq_refl) eq_refl).
  - exact (proj2 (proj2 (load_matrix_key_handling sample_files "m.npz" ".npz"
                    (Some "A") eq_refl eq_refl)) eq_refl
             {[ "A" := 1; "B" := 2 ]} eq_refl).
  - exact (proj2 (proj2 (load_matrix_key_handling sample_files "m.npz" ".npz"
                    (Some "C") eq_refl eq_refl)) eq_refl
             {[ "A" := 1; "B" := 2 ]} eq_refl).
Defined.

(** C10 as stated fails: an empty key is a key argument, and
    [load_matrix("m.mtx", key="")] returns the matrix. *)
Lemma load_matrix_empty_key_counterexample :
  io.load_matrix sample_files "m.mtx" (Some "") = Ok 42.
Proof. vm_compute. reflexivity. Qed.

(** The compressed Matrix Market suffix is never dispatched: joining the
    suffixes with a dot doubles the dot. *)
Example detect_extension_gz :
  io.detect_extension "m.mtx.gz" = Ok (Some ".mtx..gz")
  /\ io.file_format_map sample_files !! ".mtx..gz" = None.
Proof. split; vm_compute; reflexivity. Qed.

(** ** Dispatch of [load_matrix] *)

Lemma len_append (a b : string) : io.len (a +:+ b) = (io.len a + io.len b)%nat.
Proof. unfold io.len. induction a as [|c a IH]; simpl; [reflexivity|by rewrite IH]. Qed.

Lemma from_end_second (l : list string) (y x : string) :
  io.from_end (l ++ [y; x]) 2 = Ok y.
Proof.
  unfold io.from_end. rewrite rev_app_distr. reflexivity.
Qed.

(** Every key of [file_format_map] has four or seven characters. *)
Lemma file_format_map_key_len {Obj : Type} (lib : io.library Obj)
    (ext : string) (x : string * io.loader) :
  io.file_format_map lib !! ext = Some x -> io.len ext = 4%nat \/ io.len ext = 7%nat.
Proof.
  unfold io.file_format_map. simpl list_to_map. intros H.
  repeat (apply lookup_insert_Some in H;
          destruct H as [[<- _]|[_ H]]; [auto|]).
  by rewrite lookup_empty in H.
Qed.

Lemma file_format_map_loader_for {Obj : Type} (lib : io.library Obj)
    (ext : string) :
  io.len ext = 4%nat ->
  snd <$> io.file_format_map lib !! ext = loader_for lib ext.
Proof.
  intros Hlen. unfold loader_for.
  destruct (String.eqb_spec ext ".mat") as [->|H1]; [reflexivity|].
  destruct (String.eqb_spec ext ".mtx") as [->|H2]; [reflexivity|].
  destruct (String.eqb_spec ext ".npy") as [->|H3]; [reflexivity|].
  destruct (String.eqb_spec ext ".npz") as [->|H4]; [reflexivity|].
  destruct (String.eqb_spec ext ".txt") as [->|H5]; [reflexivity|].
  assert (ext <> ".mtz.gz") as H6 by (intros ->; discriminate).
  unfold io.file_format_map. simpl list_to_map.
  rewrite !lookup_insert_ne by congruence.
  by rewrite lookup_empty.
Qed.

Lemma detect_extension_no_suffix (path : string) :
  io.suffixes path = [] -> io.detect_extension path = Raise IndexError.
Proof. intros H. unfold io.detect_extension. by rewrite H. Qed.

Lemma last_two {A : Type} (l : list A) (x : A) :
  last l = Some x -> (2 <= length l)%nat -> exists l' y, l = (l' ++ [y; x])%list.
Proof.
  destruct l as [|x' l1 _] using rev_ind; [discriminate|].
  rewrite last_snoc. intros [= ->].
  destruct l1 as [|y l2 _] using rev_ind.
  - simpl. lia.
  - intros _. exists l2, y. by rewrite <- app_assoc.
Qed.

(** A last suffix that does not have four characters gives no extension,
    or, after [.gz], one of eight characters. *)
Lemma detect_extension_other (path sfx : string) :
  last (io.suffixes path) = Some sfx -> io.len sfx <> 4%nat ->
  io.detect_extension path = Ok None
  \/ exists ext, io.detect_extension path = Ok (Some ext)
                 /\ io.len ext = 8%nat /\ io.lower sfx = ".gz".
Proof.
  intros Hlast Hlen. unfold io.detect_extension.
  rewrite (from_end_last _ _ Hlast).
  destruct (io.suffixes path) as [|s0 l0] eqn:Hs; [discriminate|].
  cbn [List.length Nat.eqb rbind].
  apply Nat.eqb_neq in Hlen. rewrite Hlen. cbn [rbind].
  destruct (String.eqb_spec (io.lower sfx) ".gz") as [Hgz|_]; [|by left].
  destruct (2 <=? S (length l0))%nat eqn:Hcount; [|by left].
  apply Nat.leb_le in Hcount.
  destruct (last_two (s0 :: l0) sfx Hlast Hcount) as (l' & y & Hl).
  rewrite Hl. cbn [andb]. rewrite from_end_second. cbn [rbind].
  destruct (io.len y =? 4)%nat eqn:Hy; [|by left].
  right. eexists. split; [reflexivity|]. split; [|exact Hgz].
  rewrite <- Hl.
  replace (S (length l0) - 2)%nat with (length l')
    by (change (S (length l0)) with (length (s0 :: l0)); rewrite Hl, length_app;
        simpl; lia).
  rewrite Hl, drop_app_length. cbn [io.join].
  rewrite lower_len, !len_append. apply Nat.eqb_eq in Hy. rewrite Hy.
  rewrite <- (lower_len sfx), Hgz. reflexivity.
Qed.

Lemma loader_for_len {Obj : Type} (lib : io.library Obj) (ext : string)
    (l : io.loader) :
  loader_for lib ext = Some l -> io.len ext = 4%nat.
Proof.
  unfold loader_for.
  destruct (String.eqb_spec ext ".mat") as [->|_]; [reflexivity|].
  destruct (String.eqb_spec ext ".mtx") as [->|_]; [reflexivity|].
  destruct (String.eqb_spec ext ".npy") as [->|_]; [reflexivity|].
  destruct (String.eqb_spec ext ".npz") as [->|_]; [reflexivity|].
  destruct (String.eqb_spec ext ".txt") as [->|_]; [reflexivity|].
  discriminate.
Qed.

(** What [load_matrix] does is decided by the last suffix in lower case. *)
Lemma load_matrix_cases {Obj : Type} (lib : io.library Obj) (path : string)
    (key : option string) :
  io.load_matrix lib path key =
    match last (io.suffixes path) with
    | None => Raise IndexError
    | Some sfx =>
        match loader_for lib (io.lower sfx) with
        | Some l => l path key
        | None => io.try_loaders (all_loaders lib) path key
        end
    end.
Proof.
  unfold io.load_matrix.
  destruct (last (io.suffixes path)) as [sfx|] eqn:Hlast.
  - destruct (decide (io.len sfx = 4%nat)) as [Hlen|Hlen].
    + rewrite (detect_extension_last path sfx (io.lower sfx) Hlast eq_refl)
        by (by rewrite lower_len).
      cbn [rbind mbind option_bind].
      rewrite <- (file_format_map_loader_for lib (io.lower sfx))
        by (by rewrite lower_len).
      by destruct (io.file_format_map lib !! io.lower sfx) as [[ft l]|].
    + assert (loader_for lib (io.lower sfx) = None) as ->.
      { destruct (loader_for lib (io.lower sfx)) as [l|] eqn:Hl; [|reflexivity].
        apply loader_for_len in Hl. by rewrite lower_len in Hl. }
      destruct (detect_extension_other path sfx Hlast Hlen)
        as [->|(ext & -> & Hext & _)]; [reflexivity|].
      cbn [rbind mbind option_bind].
      destruct (io.file_format_map lib !! ext) as [[ft l]|] eqn:Hm; [|reflexivity].
      apply file_format_map_key_len in Hm. lia.
  - apply last_None in Hlast.
    by rewrite (detect_extension_no_suffix path Hlast).
Qed.

Lemma split_without_separator (c : ascii) (s : string) :
  contains c s = false -> io.split c s = [s].
Proof.
  induction s as [|x s IH]; simpl; [reflexivity|].
  intros H. apply orb_false_elim in H as [Hx Hs].
  rewrite Hx, (IH Hs). reflexivity.
Qed.

Lemma lstrip_without_separator (c : ascii) (s : string) :
  contains c s = false -> io.lstrip c s = s.
Proof.
  destruct s as [|x s]; simpl; [reflexivity|].
  intros H. apply orb_false_elim in H as [Hx _]. by rewrite Hx.
Qed.

Lemma suffixes_without_dot (path : string) :
  contains "." (io.path_name path) = false -> io.suffixes path = [].
Proof.
  intros H. unfold io.suffixes.
  destruct (io.endswith "." (io.path_name path)); [reflexivity|].
  by rewrite (lstrip_without_separator _ _ H), (split_without_separator _ _ H).
Qed.

(** X1: for a path whose final component, the text after the last
    separator, is not empty and contains no dot, [load_matrix] raises
    [IndexError] before any loader is tried, whatever the files hold and
    whatever the key is. *)
Theorem load_matrix_without_suffix {Obj : Type} (lib : io.library Obj)
    (path : string) (key : option string) :
  io.path_name path <> "" ->
  contains "." (io.path_name path) = false ->
  io.load_matrix lib path key = Raise IndexError.
Proof.
  intros _ H. rewrite load_matrix_cases.
  by rewrite (suffixes_without_dot path H).
Qed.

Lemma load_matrix_without_suffix_witness :
  io.path_name "results.d/matrix" = "matrix"
  /\ io.load_matrix sample_files "results.d/matrix" None = Raise IndexError.
Proof.
  split; [reflexivity|].
  refine (load_matrix_without_suffix sample_files "results.d/matrix" None _
            eq_refl).
  vm_compute. discriminate.
Defined.

(** X2: a path whose last suffix is, in lower case, [.mat], [.mtx],
    [.npy], [.npz] or [.txt] is handed to the loader of that format and to
    no other: its result, a failure included, is the result of
    [load_matrix]. *)
Theorem load_matrix_detected_format {Obj : Type} (lib : io.library Obj)
    (path sfx : string) (key : option string) :
  last (io.suffixes path) = Some sfx ->
  (io.lower sfx = ".mat" -> io.load_matrix lib path key = io._loadmat lib path key)
  /\ (io.lower sfx = ".mtx" -> io.load_matrix lib path key = io._mmread lib path key)
  /\ (io.lower sfx = ".npy" \/ io.lower sfx = ".npz" ->
      io.load_matrix lib path key = io._load lib path key)
  /\ (io.lower sfx = ".txt" -> io.load_matrix lib path key = io._loadtxt lib path key).
Proof.
  intros Hlast. rewrite load_matrix_cases, Hlast.
  repeat split.
  - by intros ->.
  - by intros ->.
  - by intros [-> | ->].
  - by intros ->.
Qed.

Lemma load_matrix_detected_format_witness :
  io.load_matrix sample_files "m.MAT" None
  = Raise (IOError (str_exc ValueError))
  /\ io.load_matrix sample_files "x/m.txt" None
     = Raise (IOError (str_exc ValueError)).
Proof.
  split.
  - exact (proj1 (load_matrix_detected_format sample_files "m.MAT" ".MAT" None
                    eq_refl) eq_refl).
  - exact (proj2 (proj2 (proj2 (load_matrix_detected_format sample_files
                    "x/m.txt" ".txt" None eq_refl))) eq_refl).
Defined.

(** X3: a path with a last suffix that is none of the five extensions is
    tried with every loader in the order [_loadmat], [_mmread],
    [_loadtxt], [_load]. *)
Theorem load_matrix_unknown_suffix {Obj : Type} (lib : io.library Obj)
    (path sfx : string) (key : option string) :
  last (io.suffixes path) = Some sfx ->
  io.lower sfx <> ".mat" -> io.lower sfx <> ".mtx" -> io.lower sfx <> ".npy" ->
  io.lower sfx <> ".npz" -> io.lower sfx <> ".txt" ->
  io.load_matrix lib path key
  = io.try_loaders [io._loadmat lib; io._mmread lib; io._loadtxt lib; io._load lib]
      path key.
Proof.
  intros Hlast H1 H2 H3 H4 H5. rewrite load_matrix_cases, Hlast.
  unfold loader_for.
  apply String.eqb_neq in H1, H2, H3, H4, H5.
  by rewrite H1, H2, H3, H4, H5.
Qed.

Lemma load_matrix_unknown_suffix_witness :
  io.load_matrix sample_files "m.data" None
  = Raise (IOError "Could not load file m.data (key = None)").
Proof.
  refine (eq_trans (load_matrix_unknown_suffix sample_files "m.data" ".data" None
                      eq_refl _ _ _ _ _) eq_refl); discriminate.
Defined.

(** X4: no path is detected as [.mtz.gz], the key of the compressed
    Matrix Market entry of [file_format_map]; a path that ends in [.gz] is
    always tried with every loader. *)
Theorem compressed_entry_unreachable {Obj : Type} (lib : io.library Obj) :
  (forall path, io.detect_extension path <> Ok (Some ".mtz.gz"))
  /\ (forall path sfx key,
        last (io.suffixes path) = Some sfx -> io.lower sfx = ".gz" ->
        io.load_matrix lib path key = io.try_loaders (all_loaders lib) path key).
Proof.
  split.
  - intros path H.
    destruct (last (io.suffixes path)) as [sfx|] eqn:Hlast.
    + destruct (decide (io.len sfx = 4%nat)) as [Hlen|Hlen].
      * rewrite (detect_extension_last path sfx (io.lower sfx) Hlast eq_refl) in H
          by (by rewrite lower_len).
        injection H as H. apply (f_equal io.len) in H.
        rewrite lower_len, Hlen in H. discriminate.
      * destruct (detect_extension_other path sfx Hlast Hlen)
          as [H'|(ext & H' & Hext & _)]; rewrite H' in H; [discriminate|].
        injection H as ->. discriminate.
    + apply last_None in Hlast.
      rewrite (detect_extension_no_suffix path Hlast) in H. discriminate.
  - intros path sfx key Hlast Hgz.
    by rewrite load_matrix_cases, Hlast, Hgz.
Qed.

Lemma compressed_entry_unreachable_witness :
  io.load_matrix sample_files "m.mtx.gz" None
  = io.try_loaders (all_loaders sample_files) "m.mtx.gz" None.
Proof.
  exact (proj2 (compressed_entry_unreachable sample_files) "m.mtx.gz" ".gz" None
           eq_refl eq_refl).
Defined.

(** ** The loaders *)

Lemma as_IOError_raises {A : Type} (r : result A) (e : exc) :
  io.as_IOError r = Raise e -> is_IOError e = true.
Proof. destruct r; simpl; [discriminate|]. by intros [= <-]. Qed.

Lemma loadmat_raises_IOError {Obj : Type} (lib : io.library Obj)
    (path : string) (key : option string) (e : exc) :
  io._loadmat lib path key = Raise e -> is_IOError e = true.
Proof.
  unfold io._loadmat.
  destruct (io.as_IOError (io.loadmat lib path)) as [data|e'] eqn:Hd;
    cbn [rbind].
  - destruct (io.truthy key).
    + destruct (data !! io.str_key key); [discriminate|]. by intros [= <-].
    + destruct (List.filter _ _) as [|v [|v' l]]; [|discriminate|];
        by intros [= <-].
  - intros [= <-]. by apply as_IOError_raises in Hd.
Qed.

Lemma mmread_raises_IOError {Obj : Type} (lib : io.library Obj)
    (path : string) (key : option string) (e : exc) :
  io._mmread lib path key = Raise e -> is_IOError e = true.
Proof.
  unfold io._mmread. destruct (io.truthy key).
  - by intros [= <-].
  - apply as_IOError_raises.
Qed.

Lemma loadtxt_raises_IOError {Obj : Type} (lib : io.library Obj)
    (path : string) (key : option string) (e : exc) :
  io._loadtxt lib path key = Raise e -> is_IOError e = true.
Proof.
  unfold io._loadtxt. destruct (io.truthy key).
  - by intros [= <-].
  - apply as_IOError_raises.
Qed.

(** X5: whatever scipy and numpy raise, a failure of [_loadmat], [_mmread]
    or [_loadtxt] reaches the caller as an [IOError]. *)
Theorem wrapping_loaders_raise_IOError {Obj : Type} (lib : io.library Obj)
    (path : string) (key : option string) (e : exc) :
  io._loadmat lib path key = Raise e
  \/ io._mmread lib path key = Raise e
  \/ io._loadtxt lib path key = Raise e ->
  is_IOError e = true.
Proof.
  intros [H|[H|H]].
  - by apply loadmat_raises_IOError in H.
  - by apply mmread_raises_IOError in H.
  - by apply loadtxt_raises_IOError in H.
Qed.

Lemma wrapping_loaders_raise_IOError_witness :
  io._mmread sample_files "absent.mtx" None = Raise (IOError (str_exc ValueError))
  /\ is_IOError (IOError (str_exc ValueError)) = true.
Proof.
  assert (io._mmread sample_files "absent.mtx" None
          = Raise (IOError (str_exc ValueError))) as H by reflexivity.
  split; [exact H|].
  exact (wrapping_loaders_raise_IOError sample_files "absent.mtx" None _
           (or_intror (or_introl H))).
Defined.

Lemma load_raises_np_load {Obj : Type} (lib : io.library Obj)
    (path : string) (key : option string) (e : exc) :
  io.np_load lib path = Raise e -> io._load lib path key = Raise e.
Proof. intros H. unfold io._load. by rewrite H. Qed.

(** The trial loop returns the first outcome that is not an [IOError];
    when every loader raises [IOError] it raises its own. *)
Lemma try_loaders_skip {Obj : Type} (pre : list (io.loader (Obj := Obj)))
    (rest : list io.loader) (path : string) (key : option string) :
  Forall (fun l => exists e, l path key = Raise e /\ is_IOError e = true) pre ->
  io.try_loaders (pre ++ rest) path key = io.try_loaders rest path key.
Proof.
  induction 1 as [|l pre (e & He & Hio) _ IH]; [reflexivity|].
  simpl. by rewrite He, Hio.
Qed.

(** X6: [try_loaders] answers with the outcome of the first loader that
    returns or raises something other than [IOError], skipping the loaders
    before it that raised [IOError]; when all of them raise [IOError], it
    raises an [IOError] that names the path and the key. *)
Theorem try_loaders_first_answer {Obj : Type}
    (pre : list (io.loader (Obj := Obj))) (path : string) (key : option string) :
  Forall (fun l => exists e, l path key = Raise e /\ is_IOError e = true) pre ->
  (forall l post,
     (forall e, l path key = Raise e -> is_IOError e = false) ->
     io.try_loaders (pre ++ l :: post) path key = l path key)
  /\ io.try_loaders pre path key
     = Raise (IOError ("Could not load file " +:+ path +:+ " (key = "
                       +:+ io.str_key key +:+ ")")).
Proof.
  intros Hpre. split.
  - intros l post Hl. rewrite (try_loaders_skip pre _ path key Hpre). simpl.
    destruct (l path key) as [m|e] eqn:Hr; [reflexivity|].
    by rewrite (Hl e eq_refl).
  - rewrite <- (app_nil_r pre) at 1.
    by rewrite (try_loaders_skip pre [] path key Hpre).
Qed.

Lemma try_loaders_first_answer_witness :
  io.try_loaders (all_loaders sample_files) "m.npz" (Some "B") = Ok 2.
Proof.
  assert (Forall (fun l : io.loader =>
                    exists e, l "m.npz" (Some "B") = Raise e /\ is_IOError e = true)
            [io._loadmat sample_files; io._mmread sample_files;
             io._loadtxt sample_files]) as Hpre.
  { repeat constructor; eexists; (split; [reflexivity|reflexivity]). }
  refine (eq_trans (proj1 (try_loaders_first_answer _ "m.npz" (Some "B") Hpre)
                      (io._load sample_files) [] _) eq_refl).
  intros e He. vm_compute in He. discriminate.
Defined.

(** X7: an exception of [np.load] is not converted: [_load] raises it as
    it is, so does [load_matrix] for an [.npy] or [.npz] path, and, when
    the three loaders before it have failed, so does the trial loop unless
    the exception is an [IOError]. *)
Theorem np_load_exception_unchanged {Obj : Type} (lib : io.library Obj)
    (path : string) (key : option string) (e : exc) :
  io.np_load lib path = Raise e ->
  io._load lib path key = Raise e
  /\ (forall sfx, last (io.suffixes path) = Some sfx ->
        io.lower sfx = ".npy" \/ io.lower sfx = ".npz" ->
        io.load_matrix lib path key = Raise e)
  /\ (is_IOError e = false ->
      is_ok (io._loadmat lib path key) = false ->
      is_ok (io._mmread lib path key) = false ->
      is_ok (io._loadtxt lib path key) = false ->
      io.try_loaders [io._loadmat lib; io._mmread lib; io._loadtxt lib; io._load lib]
        path key = Raise e).
Proof.
  intros Hload.
  pose proof (load_raises_np_load lib path key e Hload) as Hl.
  split; [exact Hl|]. split.
  - intros sfx Hlast Hext. rewrite load_matrix_cases, Hlast.
    by destruct Hext as [-> | ->].
  - intros Hio H1 H2 H3. simpl.
    destruct (io._loadmat lib path key) as [|e1] eqn:E1; [discriminate|].
    rewrite (loadmat_raises_IOError _ _ _ _ E1).
    destruct (io._mmread lib path key) as [|e2] eqn:E2; [discriminate|].
    rewrite (mmread_raises_IOError _ _ _ _ E2).
    destruct (io._loadtxt lib path key) as [|e3] eqn:E3; [discriminate|].
    rewrite (loadtxt_raises_IOError _ _ _ _ E3).
    by rewrite Hl, Hio.
Qed.

Lemma np_load_exception_unchanged_witness :
  io.load_matrix sample_matlab "m.npz" None = Raise ValueError
  /\ io.try_loaders (all_loaders sample_matlab) "m.bin" None = Raise ValueError.
Proof.
  destruct (np_load_exception_unchanged sample_matlab "m.npz" None ValueError
              eq_refl) as (_ & Hnpz & _).
  destruct (np_load_exception_unchanged sample_matlab "m.bin" None ValueError
              eq_refl) as (_ & _ & Hloop).
  split.
  - exact (Hnpz ".npz" eq_refl (or_intror eq_refl)).
  - exact (Hloop eq_refl eq_refl eq_refl eq_refl).
Defined.

(** X8: with a non-empty key the trial loop can only be answered by
    [_loadmat] or by [_load], since [_mmread] and [_loadtxt] reject every
    such key: it returns what [_loadmat] returns, else what [_load]
    returns, and otherwise raises the exception of [_load] if that is not
    an [IOError] and its own [IOError] if it is. *)
Theorem trial_loop_with_key {Obj : Type} (lib : io.library Obj)
    (path : string) (key : option string) :
  io.truthy key = true ->
  io.try_loaders [io._loadmat lib; io._mmread lib; io._loadtxt lib; io._load lib]
    path key
  = match io._loadmat lib path key with
    | Ok m => Ok m
    | Raise _ =>
        match io._load lib path key with
        | Ok m => Ok m
        | Raise e =>
            if is_IOError e
            then Raise (IOError ("Could not load file " +:+ path +:+ " (key = "
                                 +:+ io.str_key key +:+ ")"))
            else Raise e
        end
    end.
Proof.
  intros Hkey. simpl.
  destruct (io._loadmat lib path key) as [m|e1] eqn:E1; [reflexivity|].
  rewrite (loadmat_raises_IOError _ _ _ _ E1).
  unfold io._mmread, io._loadtxt. rewrite Hkey. simpl.
  destruct (io._load lib path key) as [m|e] eqn:E; [reflexivity|].
  by destruct (is_IOError e).
Qed.

Lemma trial_loop_with_key_witness :
  io.try_loaders (all_loaders sample_files) "m.npz" (Some "A") = Ok 1
  /\ io.try_loaders (all_loaders sample_matlab) "m.mat" (Some "A") = Ok 1
  /\ io.try_loaders (all_loaders sample_matlab) "m.npz" (Some "A") = Raise ValueError.
Proof.
  split; [|split].
  - exact (eq_trans (trial_loop_with_key sample_files "m.npz" (Some "A") eq_refl)
             eq_refl).
  - exact (eq_trans (trial_loop_with_key sample_matlab "m.mat" (Some "A") eq_refl)
             eq_refl).
  - exact (eq_trans (trial_loop_with_key sample_matlab "m.npz" (Some "A") eq_refl)
             eq_refl).
Defined.

Lemma filter_Permutation {A : Type} (f : A -> bool) (l l' : list A) :
  l ≡ₚ l' -> List.filter f l ≡ₚ List.filter f l'.
Proof.
  induction 1 as [|x l l' _ IH|x y l|l l' l'' _ IH1 _ IH2]; simpl.
  - reflexivity.
  - destruct (f x); [by constructor|exact IH].
  - destruct (f x), (f y); try reflexivity. apply perm_swap.
  - by etransitivity.
Qed.

Lemma filter_all_false {A : Type} (f : A -> bool) (l : list A) :
  Forall (fun x => f x = false) l -> List.filter f l = [].
Proof. induction 1 as [|x l Hx _ IH]; simpl; [reflexivity|by rewrite Hx]. Qed.

Lemma filter_one {A : Type} (f : A -> bool) (l : list A) (i : nat) (a : A) :
  l !! i = Some a -> f a = true -> (1 <= length (List.filter f l))%nat.
Proof.
  revert i. induction l as [|x l IH]; intros [|i] Hi Ha; try discriminate.
  - injection Hi as ->. simpl. rewrite Ha. simpl. lia.
  - simpl in Hi. specialize (IH i Hi Ha). simpl. destruct (f x); simpl; lia.
Qed.

Lemma filter_two {A : Type} (f : A -> bool) (l : list A) (i j : nat) (a b : A) :
  (i < j)%nat -> l !! i = Some a -> l !! j = Some b ->
  f a = true -> f b = true -> (2 <= length (List.filter f l))%nat.
Proof.
  revert i j. induction l as [|x l IH]; intros i j Hij Hi Hj Ha Hb;
    [discriminate|].
  destruct j as [|j]; [lia|]. simpl in Hj.
  destruct i as [|i].
  - injection Hi as ->. simpl. rewrite Ha. simpl.
    pose proof (filter_one f l j b Hj Hb). lia.
  - simpl in Hi. assert (i < j)%nat as Hij' by lia.
    specialize (IH i j Hij' Hi Hj Ha Hb). simpl. destruct (f x); simpl; lia.
Qed.

(** The matrices among the values of a dictionary that holds two of them
    under different keys. *)
Lemma two_matrices {Obj : Type} (f : Obj -> bool) (data : gmap string Obj)
    (k1 k2 : string) (m1 m2 : Obj) :
  k1 <> k2 -> data !! k1 = Some m1 -> data !! k2 = Some m2 ->
  f m1 = true -> f m2 = true ->
  (2 <= length (List.filter f (map_to_list data).*2))%nat.
Proof.
  intros Hne H1 H2 Hf1 Hf2.
  apply elem_of_map_to_list, list_elem_of_lookup in H1 as [i Hi].
  apply elem_of_map_to_list, list_elem_of_lookup in H2 as [j Hj].
  assert (i <> j) as Hij by (intros ->; congruence).
  assert ((map_to_list data).*2 !! i = Some m1) as Hi'
    by (by rewrite list_lookup_fmap, Hi).
  assert ((map_to_list data).*2 !! j = Some m2) as Hj'
    by (by rewrite list_lookup_fmap, Hj).
  destruct (decide (i < j)%nat).
  - by apply (filter_two f _ i j m1 m2).
  - apply (filter_two f _ j i m2 m1); [lia|done..].
Qed.

Lemma one_matrix {Obj : Type} (f : Obj -> bool) (data : gmap string Obj)
    (k : string) (m : Obj) :
  data !! k = Some m -> f m = true ->
  (forall k' v, k' <> k -> data !! k' = Some v -> f v = false) ->
  List.filter f (map_to_list data).*2 = [m].
Proof.
  intros Hk Hm Hothers.
  apply Permutation_singleton_r.
  rewrite <- (insert_delete_id data k m Hk) at 1.
  rewrite (filter_Permutation f _ _
             (fmap_Permutation snd _ _
                (map_to_list_insert (delete k data) k m (lookup_delete_eq data k)))).
  simpl. rewrite Hm. rewrite filter_all_false; [reflexivity|].
  apply Forall_fmap, Forall_forall. intros [k' v] Hin. simpl.
  apply elem_of_map_to_list in Hin.
  apply lookup_delete_Some in Hin as [Hne Hv]. by apply (Hothers k' v).
Qed.

(** X9: [_loadmat] without a key returns the matrix of a MATLAB file that
    holds exactly one, whatever else the file holds (its header entries);
    it raises [IOError] when the file holds no matrix and when it holds
    matrices under two different names. *)
Theorem loadmat_single_matrix {Obj : Type} (lib : io.library Obj)
    (path : string) (key : option string) (data : gmap string Obj) :
  io.loadmat lib path = Ok data -> io.truthy key = false ->
  (forall k m,
     data !! k = Some m -> io.is_matrix lib m = true ->
     (forall k' v, k' <> k -> data !! k' = Some v -> io.is_matrix lib v = false) ->
     io._loadmat lib path key = Ok m)
  /\ ((forall k v, data !! k = Some v -> io.is_matrix lib v = false) ->
      io._loadmat lib path key
      = Raise (IOError ("No matrix data contained in MATLAB file " +:+ path)))
  /\ (forall k1 k2 m1 m2,
        k1 <> k2 -> data !! k1 = Some m1 -> data !! k2 = Some m2 ->
        io.is_matrix lib m1 = true -> io.is_matrix lib m2 = true ->
        io._loadmat lib path key
        = Raise (IOError ("More than one matrix object stored in MATLAB file "
                          +:+ path))).
Proof.
  intros Hload Hkey. unfold io._loadmat. rewrite Hload. cbn [io.as_IOError rbind].
  rewrite Hkey. repeat split.
  - intros k m Hk Hm Hothers. by rewrite (one_matrix _ data k m Hk Hm Hothers).
  - intros Hnone. rewrite filter_all_false; [reflexivity|].
    apply Forall_fmap, Forall_forall. intros [k v] Hin. simpl.
    apply elem_of_map_to_list in Hin. by apply (Hnone k v).
  - intros k1 k2 m1 m2 Hne H1 H2 Hm1 Hm2.
    pose proof (two_matrices (io.is_matrix lib) data k1 k2 m1 m2 Hne H1 H2 Hm1 Hm2)
      as Hlen.
    destruct (List.filter _ _) as [|v [|v' l]]; simpl in Hlen; [lia|lia|reflexivity].
Qed.

Lemma loadmat_single_matrix_witness :
  io._loadmat sample_matlab "m.mat" None = Ok 1
  /\ io._loadmat sample_matlab "two.mat" None
     = Raise (IOError "More than one matrix object stored in MATLAB file two.mat").
Proof.
  destruct (loadmat_single_matrix sample_matlab "m.mat" None
              {[ "__header__" := -1; "A" := 1 ]} eq_refl eq_refl) as (Hone & _ & _).
  destruct (loadmat_single_matrix sample_matlab "two.mat" None
              {[ "__header__" := -1; "A" := 1; "B" := 2 ]} eq_refl eq_refl)
    as (_ & _ & Htwo).
  split.
  - apply (Hone "A" 1); [reflexivity|reflexivity|].
    intros k' v Hne Hv.
    apply lookup_insert_Some in Hv as [[_ <-]|[_ Hv]]; [reflexivity|].
    apply lookup_singleton_Some in Hv as [<- _]. congruence.
  - apply (Htwo "A" "B" 1 2); [discriminate|reflexivity..].
Defined.

(** X10: [_load] without a key on an archive (or a dictionary): an empty
    one and one with two or more entries are refused with an [IOError];
    the single entry of an archive that has one is returned, when it is a
    matrix. *)
Theorem load_archive_without_key {Obj : Type} (lib : io.library Obj)
    (path : string) (key : option string) (d : gmap string Obj) :
  io.np_load lib path = Ok (io.Mapping d) -> io.truthy key = false ->
  (size d = 0%nat ->
   io._load lib path key
   = Raise (IOError ("No data contained in NPY file " +:+ path)))
  /\ (forall k v, d = {[ k := v ]} ->
        io._load lib path key
        = if io.is_matrix lib v then Ok v
          else Raise (IOError ("Loaded data is not a matrix in NPY file " +:+ path)))
  /\ ((2 <= size d)%nat ->
      io._load lib path key
      = Raise (IOError ("More than one object stored in NPY file " +:+ path
                        +:+ " for key " +:+ io.str_key key))).
Proof.
  intros Hload Hkey. unfold io._load. rewrite Hload. cbn [rbind]. rewrite Hkey.
  split; [|split].
  - intros Hsize. apply map_size_empty_inv in Hsize as ->.
    by rewrite map_to_list_empty.
  - intros k v ->. by rewrite map_to_list_singleton.
  - intros Hsize. rewrite <- length_map_to_list in Hsize.
    destruct (map_to_list d) as [|kv [|kv' l]]; simpl in Hsize; [lia|lia|].
    reflexivity.
Qed.

Lemma load_archive_without_key_witness :
  io._load sample_files "m.npz" None
  = Raise (IOError "More than one object stored in NPY file m.npz for key None").
Proof.
  refine (proj2 (proj2 (load_archive_without_key sample_files "m.npz" None
                          {[ "A" := 1; "B" := 2 ]} eq_refl eq_refl)) _).
  vm_compute. by repeat constructor.
Defined.

(** X11: when [np.load] returns a plain object and not an archive, [_load]
    does not look at the key: for an [.npy] path (or an [.npz] path
    holding such a file) [load_matrix] returns the array for every key,
    where the Matrix Market and text loaders refuse a key. *)
Theorem load_array_ignores_key {Obj : Type} (lib : io.library Obj)
    (path : string) (o : Obj) :
  io.np_load lib path = Ok (io.Single o) ->
  (forall key,
     io._load lib path key
     = if io.is_matrix lib o then Ok o
       else Raise (IOError ("Loaded data is not a matrix in NPY file " +:+ path)))
  /\ (forall sfx key,
        last (io.suffixes path) = Some sfx ->
        io.lower sfx = ".npy" \/ io.lower sfx = ".npz" ->
        io.is_matrix lib o = true ->
        io.load_matrix lib path key = Ok o).
Proof.
  intros Hload.
  assert (forall key,
            io._load lib path key
            = if io.is_matrix lib o then Ok o
              else Raise (IOError ("Loaded data is not a matrix in NPY file "
                                   +:+ path))) as Hl.
  { intros key. unfold io._load. by rewrite Hload. }
  split; [exact Hl|].
  intros sfx key Hlast Hext Hm. rewrite load_matrix_cases, Hlast.
  destruct Hext as [-> | ->]; simpl; by rewrite Hl, Hm.
Qed.

Lemma load_array_ignores_key_witness :
  io.load_matrix sample_array "v.npy" (Some "A") = Ok 5.
Proof.
  exact (proj2 (load_array_ignores_key sample_array "v.npy" 5 eq_refl)
           ".npy" (Some "A") eq_refl (or_introl eq_refl) eq_refl).
Defined.

(** ** The function dictionary *)

Lemma functions0_whitelisted (n : string) :
  n ∈ EPF.whitelist -> EPF.functions0 !! n = Some (VFunc ("numpy." +:+ n)).
Proof.
  unfold EPF.whitelist. intros H.
  repeat (apply elem_of_cons in H as [->|H]; [vm_compute; reflexivity|]).
  by apply elem_of_nil in H.
Qed.

Lemma functions0_other (n : string) :
  n ∉ EPF.whitelist -> EPF.functions0 !! n = None.
Proof.
  intros H. unfold EPF.functions0. apply not_elem_of_list_to_map_1.
  exact H.
Qed.

(** X12: the class dictionary binds exactly the 21 listed names, each to
    the numpy function of that name.  In an expression such a name, unless
    a parameter has it, denotes the numpy function whatever the builtins
    hold: [min] and [max] are numpy's, not Python's. *)
Theorem whitelisted_names_are_numpy (rt : runtime) (locals : gmap string value)
    (n : string) :
  (is_Some (EPF.functions0 !! n) <-> n ∈ EPF.whitelist)
  /\ (n ∈ EPF.whitelist -> locals !! n = None ->
      load_name rt locals (ensure_builtins EPF.functions0) n
      = Ok (VFunc ("numpy." +:+ n))).
Proof.
  split.
  - split.
    + intros [v Hv]. destruct (decide (n ∈ EPF.whitelist)) as [|Hn]; [done|].
      rewrite (functions0_other n Hn) in Hv. discriminate.
    + intros Hn. rewrite (functions0_whitelisted n Hn). by eexists.
  - intros Hn Hl. unfold load_name. rewrite Hl.
    assert (ensure_builtins EPF.functions0 !! n = Some (VFunc ("numpy." +:+ n)))
      as ->; [|reflexivity].
    unfold ensure_builtins.
    assert (EPF.functions0 !! "__builtins__" = None) as -> by (vm_compute; reflexivity).
    rewrite lookup_insert_ne; [by apply functions0_whitelisted|].
    intros <-. revert Hn. vm_compute. intros Hn.
    repeat (apply elem_of_cons in Hn as [Hn|Hn]; [discriminate|]).
    by apply elem_of_nil in Hn.
Qed.

Lemma whitelisted_names_are_numpy_witness :
  builtins cpython !! "min" = Some (VFunc "min")
  /\ load_name cpython ∅ (ensure_builtins EPF.functions0) "min"
     = Ok (VFunc "numpy.min").
Proof.
  split; [vm_compute; reflexivity|].
  refine (proj2 (whitelisted_names_are_numpy cpython ∅ "min") _ eq_refl).
  unfold EPF.whitelist. repeat (first [apply list_elem_of_here | apply list_elem_of_further]).
Defined.

(** ** Coordinates of rank above one *)

Lemma in_range_nonneg (cs shape : list Z) :
  Forall2 (fun c n => 0 <= c < n) cs shape -> Forall (fun x => 0 <= x) shape.
Proof. induction 1; constructor; [lia|assumption]. Qed.

Lemma flat_index_bound (cs shape : list Z) :
  Forall2 (fun c n => 0 <= c < n) cs shape ->
  0 <= flat_index cs shape < product shape.
Proof.
  induction 1 as [|c n cs rest Hc Hrest IH].
  - unfold product. simpl. lia.
  - change (flat_index (c :: cs) (n :: rest))
      with (c * product rest + flat_index cs rest).
    change (product (n :: rest)) with (n * product rest). nia.
Qed.

Lemma tuple_ltb_in_range (cs shape : list Z) :
  Forall2 (fun c n => 0 <= c < n) cs shape -> shape <> [] ->
  tuple_ltb cs shape = true.
Proof.
  destruct 1 as [|c n cs rest Hc _]; [done|]. intros _. simpl.
  assert ((c =? n) = false) as -> by lia. lia.
Qed.

(** Indexing every axis with an in-range coordinate selects the entry at
    the row-major position. *)
Lemma index_axes_in_range (cs shape : list Z) :
  Forall2 (fun c n => 0 <= c < n) cs shape ->
  forall (d : list Z) (x : Z),
    length d = Z.to_nat (product shape) ->
    d !! Z.to_nat (flat_index cs shape) = Some x ->
    index_axes (shape, d) cs = Ok ([], [x]).
Proof.
  induction 1 as [|c n cs rest Hc Hrest IH]; intros d x Hlen Hx.
  - simpl. destruct d as [|y [|z d]]; try discriminate.
    simpl in Hx. by injection Hx as ->.
  - pose proof (flat_index_bound cs rest Hrest) as Hf.
    pose proof (product_nonneg rest (in_range_nonneg cs rest Hrest)) as Hp.
    change (flat_index (c :: cs) (n :: rest))
      with (c * product rest + flat_index cs rest) in Hx.
    change (product (n :: rest)) with (n * product rest) in Hlen.
    cbn [index_axes index_axis].
    assert ((c <? 0) = false) as -> by lia.
    assert ((0 <=? c) && (c <? n) = true) as -> by lia.
    cbn [rbind]. apply IH.
    + rewrite length_take, length_drop, Hlen.
      rewrite Z2Nat.inj_mul by lia.
      assert (Z.to_nat c < Z.to_nat n)%nat by lia. nia.
    + rewrite lookup_take_lt by lia.
      rewrite lookup_drop. rewrite <- Hx. f_equal.
      rewrite Z2Nat.inj_add by nia. rewrite Z2Nat.inj_mul by lia. reflexivity.
Qed.

(** X13: a tuple of coordinates that is in range on every axis of the
    declared shape is accepted by the constructor, under both Python
    versions, and [evaluate] then returns the entry of a conforming array
    at that position (row-major). *)
Theorem projection_in_range_coordinates
    (ver : py_version) (pname : string) (shape : shape_arg) (cs : list Z)
    (nm : option string) :
  Forall2 (fun c n => 0 <= c < n) cs (PFI.normalize_shape shape) ->
  exists obj,
    PPF.__init__ ver pname shape (Some (IndexTuple cs)) nm = Ok obj
    /\ forall (d : list Z) (x : Z),
         length d = Z.to_nat (product (PFI.normalize_shape shape)) ->
         d !! Z.to_nat (flat_index cs (PFI.normalize_shape shape)) = Some x ->
         PPF.evaluate obj (Some {[ pname := VArray (PFI.normalize_shape shape) d ]})
         = Ok (VInt x).
Proof.
  intros Hin. unfold PPF.__init__.
  change (match shape with
          | ShapeNumber n0 => if n0 =? 0 then [] else [n0]
          | ShapeTuple s => s
          end) with (PFI.normalize_shape shape).
  set (s := PFI.normalize_shape shape) in *.
  assert ((if 1 <? sum s
           then py_assert (index_lt ver (IndexTuple cs) s)
           else Ok tt) = Ok tt) as ->.
  { destruct (1 <? sum s) eqn:Hsum; [|reflexivity].
    unfold index_lt. rewrite tuple_ltb_in_range; [reflexivity|exact Hin|].
    intros Hs. rewrite Hs in Hsum. discriminate. }
  cbn [rbind]. eexists. split; [reflexivity|].
  intros d x Hlen Hx. unfold PPF.evaluate.
  cbn [PPF.parameter_type PPF.coordinates PPF.parameter_name].
  rewrite build_singleton.
  rewrite (parse_parameter_conforms _ _ (conforms_singleton pname s d)).
  cbn [rbind]. unfold dict_getitem. rewrite lookup_singleton_eq. cbn [rbind].
  unfold np_getitem. by rewrite (index_axes_in_range cs s Hin d x Hlen Hx).
Qed.

Lemma projection_in_range_coordinates_witness :
  exists obj,
    PPF.__init__ Py3 "k" (ShapeTuple [2; 3]) (Some (IndexTuple [1; 2])) None = Ok obj
    /\ PPF.evaluate obj (Some {[ "k" := VArray [2; 3] [10; 11; 12; 20; 21; 22] ]})
       = Ok (VInt 22).
Proof.
  assert (Forall2 (fun c n => 0 <= c < n) [1; 2]
            (PFI.normalize_shape (ShapeTuple [2; 3]))) as Hin
    by (repeat constructor; lia).
  destruct (projection_in_range_coordinates Py3 "k" (ShapeTuple [2; 3]) [1; 2]
              None Hin) as (obj & Hobj & Hev).
  exists obj. split; [exact Hobj|].
  apply Hev; reflexivity.
Defined.

(** X14: the constructor compares coordinates and shape as tuples, so a
    first coordinate below the first extent is enough: whatever follows
    is accepted.  For a shape [(n, m)] and coordinates [(c1, c2)] with
    [c1] in range and [c2 >= m], construction succeeds and every
    [evaluate] on a conforming value raises [IndexError]. *)
Theorem projection_later_coordinates_unchecked
    (ver : py_version) (pname : string) (n c1 : Z) (rest cs : list Z)
    (nm : option string) :
  c1 < n ->
  (exists obj,
     PPF.__init__ ver pname (ShapeTuple (n :: rest)) (Some (IndexTuple (c1 :: cs))) nm
     = Ok obj)
  /\ (forall m c2 obj,
        rest = [m] -> cs = [c2] -> 0 <= c1 -> 0 <= m <= c2 ->
        PPF.__init__ ver pname (ShapeTuple (n :: rest)) (Some (IndexTuple (c1 :: cs))) nm
        = Ok obj ->
        forall d, PPF.evaluate obj (Some {[ pname := VArray [n; m] d ]})
                  = Raise IndexError).
Proof.
  intros Hc1.
  assert (tuple_ltb (c1 :: cs) (n :: rest) = true) as Hlt.
  { simpl. assert ((c1 =? n) = false) as -> by lia. lia. }
  assert (forall coords,
            coords = Some (IndexTuple (c1 :: cs)) ->
            PPF.__init__ ver pname (ShapeTuple (n :: rest)) coords nm
            = Ok (PPF.mk nm {[ pname := n :: rest ]} pname coords true)) as Hinit.
  { intros coords ->. unfold PPF.__init__. rewrite build_singleton.
    destruct (1 <? sum (n :: rest)); [|reflexivity].
    unfold index_lt. by rewrite Hlt. }
  split.
  - eexists. by apply Hinit.
  - intros m c2 obj -> -> Hc1' Hm Hobj d.
    rewrite (Hinit _ eq_refl) in Hobj. injection Hobj as <-.
    unfold PPF.evaluate.
    cbn [PPF.parameter_type PPF.coordinates PPF.parameter_name].
    rewrite (parse_parameter_conforms _ _ (conforms_singleton pname [n; m] d)).
    cbn [rbind]. unfold dict_getitem. rewrite lookup_singleton_eq. cbn [rbind].
    unfold np_getitem. cbn [index_axes index_axis].
    assert ((c1 <? 0) = false) as -> by lia.
    assert ((0 <=? c1) && (c1 <? n) = true) as -> by lia.
    cbn [rbind index_axis].
    assert ((c2 <? 0) = false) as -> by lia.
    assert ((0 <=? c2) && (c2 <? m) = false) as -> by lia.
    reflexivity.
Qed.

Lemma projection_later_coordinates_unchecked_witness :
  exists obj,
    PPF.__init__ Py3 "k" (ShapeTuple [2; 3]) (Some (IndexTuple [0; 7])) None = Ok obj
    /\ PPF.evaluate obj (Some {[ "k" := VArray [2; 3] [10; 11; 12; 20; 21; 22] ]})
       = Raise IndexError.
Proof.
  assert (0 < 2) as Hc by lia.
  destruct (projection_later_coordinates_unchecked Py3 "k" 2 0 [3] [7] None Hc)
    as ((obj & Hobj) & Hev).
  exists obj. split; [exact Hobj|].
  apply (Hev 3 7 obj eq_refl eq_refl); [lia|lia|exact Hobj].
Defined.

(** ** Context managers *)

(** X15: [change_to_directory] leaves the process in the directory it
    started from, whether the body returns or raises and whether or not
    the directory could be entered, as long as changing back succeeds.
    The body's value or exception is the outcome of the block; when
    [os.chdir(name)] fails, its exception is the outcome and the body does
    not run. *)
Theorem change_to_directory_restores {State A : Type} (sys : io.system State)
    (name old : string) (body : State -> result A * State) (s : State) :
  io.getcwd sys s = Ok old ->
  (forall s1, exists s2,
     io.chdir sys old s1 = (Ok tt, s2) /\ io.getcwd sys s2 = Ok old) ->
  io.getcwd sys (io.change_to_directory sys name body s).2 = Ok old
  /\ (forall s1, io.chdir sys name s = (Ok tt, s1) ->
        (io.change_to_directory sys name body s).1 = (body s1).1)
  /\ (forall e s1, io.chdir sys name s = (Raise e, s1) ->
        forall body' : State -> result A * State,
          io.change_to_directory sys name body' s
          = (Raise e, (io.change_to_directory sys name body s).2)).
Proof.
  intros Hold Hback. unfold io.change_to_directory. rewrite Hold.
  split; [|split].
  - destruct (match io.chdir sys name s with
              | (Ok _, s1) => body s1
              | (Raise e, s1) => (Raise e, s1)
              end) as [r s1].
    destruct (Hback s1) as (s2 & -> & Hcwd). exact Hcwd.
  - intros s1 Henter. rewrite Henter.
    destruct (body s1) as [r s1'].
    by destruct (Hback s1') as (s2 & -> & _).
  - intros e s1 Henter body'. rewrite Henter.
    by destruct (Hback s1) as (s2 & -> & _).
Qed.

Lemma change_to_directory_restores_witness :
  let failing : string * list string -> result Z * (string * list string) :=
    fun s => (Raise ValueError, s) in
  io.getcwd sample_system
    (io.change_to_directory sample_system "/data" failing ("/home", [])).2
  = Ok "/home"
  /\ (io.change_to_directory sample_system "/data" failing ("/home", [])).1
     = Raise ValueError
  /\ io.change_to_directory sample_system "/absent" failing ("/home", [])
     = (Raise (IOError "No such file or directory"), ("/home", [])).
Proof.
  intros failing.
  assert (forall s1 : string * list string, exists s2,
            io.chdir sample_system "/home" s1 = (Ok tt, s2)
            /\ io.getcwd sample_system s2 = Ok "/home") as Hback.
  { intros s1. eexists. split; reflexivity. }
  destruct (change_to_directory_restores sample_system "/data" "/home" failing
              ("/home", []) eq_refl Hback) as (Hcwd & Hrun & _).
  destruct (change_to_directory_restores sample_system "/absent" "/home" failing
              ("/home", []) eq_refl Hback) as (_ & _ & Hfail).
  split; [exact Hcwd|]. split.
  - exact (Hrun ("/data", []) eq_refl).
  - exact (Hfail _ _ eq_refl failing).
Defined.

(** X16: [SafeTemporaryFileName] hands its body the path of [name], or of
    [temp_file] when no name or an empty one is given, joined to the fresh
    directory.  When the body returns, the directory is removed and the
    body's value is the outcome; when the body raises, the block ends in
    the state the body left, with the directory not removed. *)
Theorem safe_temporary_file_name_cleanup {State A : Type}
    (sys : io.system State) (name parent_dir : option string)
    (body : string -> State -> result A * State) (s s1 : State)
    (dirname : string) :
  io.mkdtemp sys (io.or_default parent_dir (io.gettempdir sys s)) s
  = (Ok dirname, s1) ->
  let path := io.path_join dirname (io.or_default name "temp_file") in
  (io.truthy name = false -> path = io.path_join dirname "temp_file")
  /\ (forall a s2 s3,
        body path s1 = (Ok a, s2) -> io.rmtree sys dirname s2 = (Ok tt, s3) ->
        io.SafeTemporaryFileName sys name parent_dir body s = (Ok a, s3))
  /\ (forall e s2,
        body path s1 = (Raise e, s2) ->
        io.SafeTemporaryFileName sys name parent_dir body s = (Raise e, s2)).
Proof.
  intros Hmk path. split; [|split].
  - intros Hname. unfold path, io.or_default. by rewrite Hname.
  - intros a s2 s3 Hbody Hrm. unfold io.SafeTemporaryFileName.
    rewrite Hmk. fold path. by rewrite Hbody, Hrm.
  - intros e s2 Hbody. unfold io.SafeTemporaryFileName.
    rewrite Hmk. fold path. by rewrite Hbody.
Qed.

Lemma safe_temporary_file_name_cleanup_witness :
  io.SafeTemporaryFileName sample_system None None
    (fun path s => (Ok path, s)) ("/home", [])
  = (Ok "/tmp/tmpdir/temp_file", ("/home", []))
  /\ io.SafeTemporaryFileName sample_system (Some "a.npy") None
       (fun path s => (Raise ValueError : result string, s)) ("/home", [])
     = (Raise ValueError, ("/home", ["/tmp/tmpdir"])).
Proof.
  destruct (safe_temporary_file_name_cleanup sample_system None None
              (fun path s => (Ok path, s)) ("/home", []) _ _ eq_refl)
    as (_ & Hok & _).
  destruct (safe_temporary_file_name_cleanup sample_system (Some "a.npy") None
              (fun path s => (Raise ValueError : result string, s))
              ("/home", []) _ _ eq_refl)
    as (_ & _ & Hraise).
  split.
  - exact (Hok _ _ _ eq_refl eq_refl).
  - exact (Hraise _ _ eq_refl).
Defined.

(** ** ShiftedVisualizer *)

Lemma comprehension_length {VA : Type} (f : VA -> result VA) (us vs : list VA) :
  SV.comprehension f us = Ok vs -> length vs = length us.
Proof.
  revert vs. induction us as [|u us IH]; intros vs; simpl.
  - by intros [= <-].
  - destruct (f u) as [v|e]; [|discriminate]. cbn [rbind].
    destruct (SV.comprehension f us) as [vs'|e]; [|discriminate]. cbn [rbind].
    intros [= <-]. simpl. by rewrite (IH vs' eq_refl).
Qed.

(** X17: [visualize] first shifts every array; when the shift fails on one
    of them, nothing is visualized.  Otherwise (with a visualizer that
    does not raise) it shows the shifted arrays, as many as it was given,
    with the arguments as they came, and, when a [filename] is among the
    keyword arguments, shows the arrays it was given once more, with the
    same arguments except that the file name is prefixed with
    [notshifted_]. *)
Theorem shifted_visualizer_calls {VA : Type} (str : value -> string)
    (self : SV.t (VA := VA)) (U : SV.vectors) (args : list value)
    (kwargs : gmap string value) (log : list SV.vcall) :
  let us := match U with SV.One u => [u] | SV.Many us => us end in
  (forall e, SV.comprehension (SV.apply (SV.shift self)) us = Raise e ->
     SV.visualize str self U args kwargs log = (Raise e, log))
  /\ (forall shifted,
        SV.comprehension (SV.apply (SV.shift self)) us = Ok shifted ->
        (forall c, SV.original_visualizer self c = Ok tt) ->
        length shifted = length us
        /\ SV.visualize str self U args kwargs log
           = (Ok tt,
              (log ++
               {| SV.data := shifted; SV.args := args; SV.kwargs := kwargs |}
               :: match kwargs !! "filename" with
                  | None => []
                  | Some fn =>
                      [ {| SV.data := us; SV.args := args;
                           SV.kwargs :=
                             <[ "filename" := VStr ("notshifted_" +:+ str fn) ]>
                               kwargs |} ]
                  end)%list)).
Proof.
  intros us. split.
  - intros e He. unfold SV.visualize. fold us. by rewrite He.
  - intros shifted Hs Hvis. split; [by apply comprehension_length in Hs|].
    unfold SV.visualize. fold us. rewrite Hs, Hvis.
    destruct (kwargs !! "filename") as [fn|]; [|reflexivity].
    by rewrite Hvis, insert_delete_eq.
Qed.

Lemma shifted_visualizer_calls_witness :
  let str := fun v => match v with VStr s => s | _ => "" end in
  let self :=
    SV.mk (fun _ : SV.vcall => Ok tt)
      {| SV.object := io.Instance "NumpyMatrixOperator";
         SV.apply := fun u : Z => Ok (u + 1) |} in
  SV.visualize str self (SV.One 5) [] {[ "filename" := VStr "out.vtk" ]} []
  = (Ok tt,
     [ {| SV.data := [6]; SV.args := [];
          SV.kwargs := {[ "filename" := VStr "out.vtk" ]} |};
       {| SV.data := [5]; SV.args := [];
          SV.kwargs := {[ "filename" := VStr "notshifted_out.vtk" ]} |} ]).
Proof.
  intros str self.
  destruct (proj2 (shifted_visualizer_calls str self (SV.One 5) []
                     {[ "filename" := VStr "out.vtk" ]} [])
              [6] eq_refl (fun c => eq_refl)) as [_ H].
  exact (eq_trans H eq_refl).
Defined.

(** X18: the constructor tests [isinstance(Operator, shift)], with the
    class in the place of the object: for a [shift] that is an object and
    not a class it raises [TypeError]; a class passes exactly when the
    class [Operator] is an instance of it. *)
Theorem shifted_visualizer_rejects_operators {VA : Type}
    (instance_of : io.pyobject -> string -> bool)
    (auto_init : (SV.vcall -> result unit) -> SV.operator -> result (SV.t (VA := VA)))
    (original_visualizer : SV.vcall -> result unit)
    (apply : VA -> result VA) :
  (forall cls,
     SV.__init__ instance_of auto_init original_visualizer
       {| SV.object := io.Instance cls; SV.apply := apply |}
     = Raise TypeError)
  /\ (forall c,
        SV.__init__ instance_of auto_init original_visualizer
          {| SV.object := io.Class c; SV.apply := apply |}
        = if instance_of (io.Class "Operator") c
          then auto_init original_visualizer
                 {| SV.object := io.Class c; SV.apply := apply |}
          else Raise AssertionError).
Proof.
  split.
  - reflexivity.
  - intros c. unfold SV.__init__, io.isinstance, py_assert. simpl.
    by destruct (instance_of (io.Class "Operator") c).
Qed.

(** ** Projection and expression *)

Lemma parse_parameter_singleton (k : string) (s : list Z) (d : gmap string value) :
  PFI.parse_parameter {[ k := s ]} (Some d)
  = match PFI.validate s (d !! k) with
    | Some v => Ok {[ k := v ]}
    | None => Raise (TypeMismatch k)
    end.
Proof.
  unfold PFI.parse_parameter. rewrite map_to_list_singleton.
  unfold PFI.offending. simpl.
  destruct (PFI.validate s (d !! k)) as [v|] eqn:Hv; [|reflexivity].
  f_equal. apply map_eq. intros j. rewrite map_lookup_imap.
  destruct (decide (k = j)) as [<-|Hne].
  - rewrite !lookup_singleton_eq. simpl. exact Hv.
  - by rewrite !lookup_singleton_ne.
Qed.

(** X19: for a parameter whose shape needs no coordinates, the projection
    functional without coordinates and the expression functional whose
    expression is the parameter's name return the same result on every
    dictionary: the validated array, or the same validation error. *)
Theorem projection_is_expression_of_name
    (ver : py_version) (rt : runtime) (pname : string) (shape : shape_arg)
    (nm : option string) :
  compile rt pname = Ok (EName pname) ->
  sum (PFI.normalize_shape shape) <= 1 ->
  exists p f,
    PPF.__init__ ver pname shape None nm = Ok p
    /\ EPF.__init__ rt pname {[ pname := shape ]} nm = Ok f
    /\ forall (d : gmap string value) (w : world),
         (EPF.evaluate f (Some d) w).1 = PPF.evaluate p (Some d).
Proof.
  intros Hc Hsum. unfold PPF.__init__, EPF.__init__.
  change (match shape with
          | ShapeNumber n0 => if n0 =? 0 then [] else [n0]
          | ShapeTuple s => s
          end) with (PFI.normalize_shape shape).
  assert ((1 <? sum (PFI.normalize_shape shape)) = false) as -> by lia.
  rewrite Hc. cbn [rbind]. do 2 eexists.
  split; [reflexivity|]. split; [reflexivity|].
  intros d w. unfold EPF.evaluate, GPF.evaluate, PPF.evaluate.
  cbn [EPF.base GPF.__init__ GPF.parameter_type GPF._mapping
       PPF.parameter_type PPF.coordinates PPF.parameter_name].
  rewrite build_singleton.
  unfold PFI.build_parameter_type. rewrite map_fmap_singleton.
  rewrite parse_parameter_singleton.
  destruct (PFI.validate (PFI.normalize_shape shape) (d !! pname)) as [v|];
    [|reflexivity].
  cbn [rbind]. unfold py_eval, dict_getitem. simpl.
  unfold load_name. by rewrite !lookup_singleton_eq.
Qed.

Lemma projection_is_expression_of_name_witness :
  exists p f,
    PPF.__init__ Py3 "x" (ShapeNumber 0) None None = Ok p
    /\ EPF.__init__ cpython "x" {[ "x" := ShapeNumber 0 ]} None = Ok f
    /\ (EPF.evaluate f (Some {[ "x" := VInt 4 ]}) EPF.initial_world).1
       = PPF.evaluate p (Some {[ "x" := VInt 4 ]}).
Proof.
  assert (compile cpython "x" = Ok (EName "x")) as Hc by (vm_compute; reflexivity).
  assert (sum (PFI.normalize_shape (ShapeNumber 0)) <= 1) as Hs
    by (vm_compute; discriminate).
  destruct (projection_is_expression_of_name Py3 cpython "x" (ShapeNumber 0) None
              Hc Hs) as (p & f & Hp & Hf & Heq).
  exists p, f. split; [exact Hp|]. split; [exact Hf|]. apply Heq.
Defined.

(** ** Keys *)

(** X20: with a non-empty key [_loadmat] returns whatever the MATLAB file
    holds under the key, a header entry as well as a matrix, and raises an
    [IOError] naming key and path when the key is absent; [_load] refuses
    an entry that is not a matrix. *)
Theorem keyed_entry_checked_only_by_load {Obj : Type} (lib : io.library Obj)
    (path : string) (key : option string) (data : gmap string Obj) :
  io.truthy key = true ->
  (io.loadmat lib path = Ok data ->
   io._loadmat lib path key
   = match data !! io.str_key key with
     | Some v => Ok v
     | None => Raise (IOError (io.dquote +:+ io.str_key key +:+ io.dquote
                               +:+ " not found in MATLAB file " +:+ path))
     end)
  /\ (io.np_load lib path = Ok (io.Mapping data) ->
      forall v, data !! io.str_key key = Some v -> io.is_matrix lib v = false ->
        io._load lib path key
        = Raise (IOError ("Loaded data is not a matrix in NPY file " +:+ path))).
Proof.
  intros Hkey. split.
  - intros Hload. unfold io._loadmat. rewrite Hload. cbn [io.as_IOError rbind].
    by rewrite Hkey.
  - intros Hload v Hv Hm. unfold io._load. rewrite Hload. cbn [rbind].
    rewrite Hkey, Hv. cbn [rbind]. by rewrite Hm.
Qed.

Lemma keyed_entry_checked_only_by_load_witness :
  io.is_matrix sample_matlab (-1) = false
  /\ io._loadmat sample_matlab "m.mat" (Some "__header__") = Ok (-1)
  /\ io._loadmat sample_matlab "m.mat" (Some "C")
     = Raise (IOError (io.dquote +:+ "C" +:+ io.dquote
                       +:+ " not found in MATLAB file m.mat")).
Proof.
  split; [reflexivity|]. split.
  - exact (proj1 (keyed_entry_checked_only_by_load sample_matlab "m.mat"
                    (Some "__header__") {[ "__header__" := -1; "A" := 1 ]} eq_refl)
             eq_refl).
  - exact (proj1 (keyed_entry_checked_only_by_load sample_matlab "m.mat"
                    (Some "C") {[ "__header__" := -1; "A" := 1 ]} eq_refl)
             eq_refl).
Defined.
